(** * DietPrompt engine (src/js/engine.ts): prompt compression and token accounting

    A shallow embedding of the engine module.  JavaScript strings are
    sequences of UTF-16 code units; objects that the code shares and mutates
    (the completion request, the tiktoken encodings) live in an explicit
    store, and every method is a computation over that store which either
    returns or throws. *)

From Stdlib Require Import String Ascii.
From stdpp Require Import gmap list fin_maps.

Set Warnings "-register-all".
Local Open Scope N_scope.

(** ** JavaScript strings *)

Module JsString.

(** A string is its sequence of UTF-16 code units. *)
Definition code_unit := N.
Definition t := list code_unit.

(** The string denoted by an ASCII literal of the source. *)
Definition lit (s : string) : t := List.map N_of_ascii (list_ascii_of_string s).

(** [===] on two strings. *)
Definition eqb (a b : t) : bool := bool_decide (a = b).

(** [Array.prototype.includes] on an array of strings. *)
Definition includes (arr : list t) (x : t) : bool := List.existsb (eqb x) arr.

(** [s.split(EMPTY)] on the empty separator: one single-unit string per code unit. *)
Definition split_chars (s : t) : list t := List.map (fun c => [c]) s.

(** [arr.join(sep)]. *)
Fixpoint join (sep : t) (arr : list t) : t :=
  match arr with
  | [] => []
  | [w] => w
  | w :: ws => w ++ sep ++ join sep ws
  end.

(** [s.split(sep)] for a separator of one code unit.  The result is never
    empty: the empty string splits into one empty word. *)
Fixpoint split_on (sep : code_unit) (s : t) : list t :=
  match s with
  | [] => [[]]
  | c :: rest =>
      if c =? sep then [] :: split_on sep rest
      else match split_on sep rest with
           | w :: ws => (c :: w) :: ws
           | [] => [[c]]
           end
  end.

(** A code unit matches an ASCII letter of a pattern under the [i] flag
    when it is that letter in lower or in upper case; no code unit outside
    ASCII canonicalizes to D, O, N or T. *)
Definition eq_ci (lower upper c : code_unit) : bool := (c =? lower) || (c =? upper).

End JsString.

Abbreviation jsstring := JsString.t.
Abbreviation lit := JsString.lit.

(** ** The compression rule *)

(** The array [PUNCTUATION]: full stop, comma, apostrophe, double quote,
    exclamation mark, question mark, semicolon, colon and hyphen-minus, each
    as a string of one code unit; the double quote is code unit 34. *)
Definition PUNCTUATION : list jsstring :=
  [lit "."; lit ","; lit "'"; [34]; lit "!"; lit "?"; lit ";"; lit ":"; lit "-"].

(** The regular expression [/do not/i] tried at the head of six code units. *)
Definition matches_do_not (c1 c2 c3 c4 c5 c6 : N) : bool :=
  JsString.eq_ci 100 68 c1 && JsString.eq_ci 111 79 c2 && (c3 =? 32)
  && JsString.eq_ci 110 78 c4 && JsString.eq_ci 111 79 c5 && JsString.eq_ci 116 84 c6.

(** [prompt.replace(/do not/gi, DONT)], DONT being the five code units of
    the contraction: scan from the left; where the pattern matches, emit the
    replacement and resume after the match, otherwise keep the code unit and
    move one position on. *)
Fixpoint replace_do_not (s : jsstring) : jsstring :=
  match s with
  | [] => []
  | c1 :: tl =>
      match tl with
      | c2 :: c3 :: c4 :: c5 :: c6 :: rest =>
          if matches_do_not c1 c2 c3 c4 c5 c6
          then lit "don't" ++ replace_do_not rest
          else c1 :: replace_do_not tl
      | _ => c1 :: replace_do_not tl
      end
  end.

(** Whether [/do not/i] matches somewhere in [s]. *)
Fixpoint contains_do_not (s : jsstring) : bool :=
  match s with
  | [] => false
  | c1 :: tl =>
      match tl with
      | c2 :: c3 :: c4 :: c5 :: c6 :: _ => matches_do_not c1 c2 c3 c4 c5 c6
      | _ => false
      end
      || contains_do_not tl
  end.

(** The punctuation pass: split into code units, keep those [char] with
    [!PUNCTUATION.includes(char)], join on the empty string. *)
Definition remove_punctuation (s : jsstring) : jsstring :=
  JsString.join []
    (List.filter (fun char => negb (JsString.includes PUNCTUATION char))
       (JsString.split_chars s)).

(** The stopword pass, over the array [stopwords.english] of ./data: split
    on one space, keep those [word] with [!stopwords.english.includes(word)],
    join on one space. *)
Definition remove_stopwords (english : list jsstring) (s : jsstring) : jsstring :=
  JsString.join (lit " ")
    (List.filter (fun word => negb (JsString.includes english word))
       (JsString.split_on 32 s)).

(** The body of [compressPromptDefault] on a string, as a function of the
    stopword array it reads. *)
Definition compress_default (english : list jsstring) (prompt : jsstring) : jsstring :=
  let prompt := replace_do_not prompt in
  let prompt := remove_punctuation prompt in
  let prompt := remove_stopwords english prompt in
  prompt.

(** ** Values and objects *)

(** The values a field of the request can hold at run time. *)
Inductive value :=
| VUndefined
| VNull
| VBool (b : bool)
| VNumber (n : Z)
| VString (s : jsstring)
| VArray (elems : list value).

Definition typeof (v : value) : jsstring :=
  match v with
  | VUndefined => lit "undefined"
  | VNull => lit "object"
  | VBool _ => lit "boolean"
  | VNumber _ => lit "number"
  | VString _ => lit "string"
  | VArray _ => lit "object"
  end.

(** ToBoolean. *)
Definition truthy (v : value) : bool :=
  match v with
  | VUndefined | VNull => false
  | VBool b => b
  | VNumber n => negb (n =? 0)%Z
  | VString s => negb (JsString.eqb s [])
  | VArray _ => true
  end.

(** [a || b]: the left operand when it is truthy, the right one otherwise. *)
Definition js_or (a b : value) : value := if truthy a then a else b.

(** [v === undefined]. *)
Definition is_undefined (v : value) : value :=
  VBool match v with VUndefined => true | _ => false end.

Module CompressionType.

(** The union of the two string literals none and default. *)
Inductive t := none | default.

(** A parameter declared with the default value default: an omitted
    argument takes it. *)
Definition or_default (arg : option t) : t :=
  match arg with
  | Some c => c
  | None => default
  end.

End CompressionType.

(** The fields of a completion request that the engine reads or writes; the
    remaining, optional fields of the OpenAI type are never touched. *)
Record CreateCompletionRequest := {
  model : value;
  prompt : value;
}.

Record Configuration := { apiKey : value }.

(** [new OpenAIApi(configuration)] only stores the configuration. *)
Record OpenAIApi := { configuration : Configuration }.

(** ** Exceptions *)

Inductive tiktoken_failure := UnsupportedModel | EncodeFailed | Released.

Inductive exn :=
| Error (message : string)              (* throw new Error(message) *)
| TypeError                             (* a property read on undefined or null, a call of a non-function *)
| TiktokenError (why : tiktoken_failure).

(** ** The tokenizer library *)

(** What @dqbd/tiktoken provides: whether [encoding_for_model] has an
    encoding for a model, what it throws for a model it has none for, and
    the tokens [encode] yields for a text under a model's encoding; [None]
    where [encode] throws. *)
Class Tiktoken := {
  has_encoding : value -> bool;
  model_error : value -> exn;
  encode : value -> value -> option (list N);
}.

(** A Tiktoken object: the model it was made for, and whether [free] has
    released its memory. *)
Record encoding := {
  enc_model : value;
  enc_freed : bool;
}.

(** ** The store and computations over it *)

Abbreviation ref := nat.
Abbreviation handle := nat.

Record store := {
  stopwords_english : list jsstring;             (* stopwords.english of ./data *)
  requests : gmap ref CreateCompletionRequest;   (* request objects, by reference *)
  encodings : gmap handle encoding;              (* Tiktoken objects, by reference *)
}.

Definition set_requests (st : store) (reqs : gmap ref CreateCompletionRequest) : store :=
  {| stopwords_english := stopwords_english st; requests := reqs; encodings := encodings st |}.

Definition set_encodings (st : store) (encs : gmap handle encoding) : store :=
  {| stopwords_english := stopwords_english st; requests := requests st; encodings := encs |}.

Inductive completion (A : Type) :=
| Return (a : A)
| Throw (e : exn).
Arguments Return {A} a.
Arguments Throw {A} e.

Definition M (A : Type) : Type := store -> completion A * store.

Definition ret {A} (a : A) : M A := fun st => (Return a, st).
Definition throw {A} (e : exn) : M A := fun st => (Throw e, st).
Definition bind {A B} (m : M A) (k : A -> M B) : M B :=
  fun st => match m st with
            | (Return a, st') => k a st'
            | (Throw e, st') => (Throw e, st')
            end.

Notation "'let*' x ':=' m 'in' k" := (bind m (fun x => k))
  (at level 10, x name, m at level 100, k at level 200).
Notation "m ';;;' k" := (bind m (fun _ => k))
  (at level 100, k at level 200, right associativity).

Definition completion_map {A B} (f : A -> B) (c : completion A) : completion B :=
  match c with
  | Return a => Return (f a)
  | Throw e => Throw e
  end.

(** Reading a field of the request object behind [r].  A reference that
    names no object stands for a request that is [undefined]. *)
Definition read_request (r : ref) : M CreateCompletionRequest :=
  fun st => match requests st !! r with
            | Some req => (Return req, st)
            | None => (Throw TypeError, st)
            end.

(** [request.prompt = v] on the object behind [r]. *)
Definition write_prompt (r : ref) (v : value) : M unit :=
  fun st => match requests st !! r with
            | Some req =>
                (Return tt,
                 set_requests st (<[r := {| model := model req; prompt := v |}]> (requests st)))
            | None => (Throw TypeError, st)
            end.

(** ** The engine *)

Section Tokenizer.
Context {tiktoken : Tiktoken}.

(** What [encoding_for_model(m)] throws when there is no encoding for [m].
    The binding first reads the length of its argument, so a model that is
    [null] or [undefined] is a TypeError; for any other model the library
    throws its own exception. *)
Definition missing_encoding_error (m : value) : exn :=
  match m with
  | VUndefined | VNull => TypeError
  | _ => model_error m
  end.

(** [encoding_for_model(m)]: a new Tiktoken object, or an exception for a
    model there is no encoding for. *)
Definition encoding_for_model (m : value) : M handle :=
  fun st =>
    if has_encoding m then
      let h := fresh (dom (encodings st)) in
      (Return h,
       set_encodings st (<[h := {| enc_model := m; enc_freed := false |}]> (encodings st)))
    else (Throw (missing_encoding_error m), st).

(** [enc.encode(text)]: a released object cannot be used any more. *)
Definition tiktoken_encode (h : handle) (text : value) : M (list N) :=
  fun st =>
    match encodings st !! h with
    | Some enc =>
        if enc_freed enc then (Throw (TiktokenError Released), st)
        else match encode (enc_model enc) text with
             | Some tokens => (Return tokens, st)
             | None => (Throw (TiktokenError EncodeFailed), st)
             end
    | None => (Throw TypeError, st)
    end.

(** [enc.free()]. *)
Definition tiktoken_free (h : handle) : M unit :=
  fun st =>
    match encodings st !! h with
    | Some enc =>
        if enc_freed enc then (Throw (TiktokenError Released), st)
        else (Return tt,
              set_encodings st
                (<[h := {| enc_model := enc_model enc; enc_freed := true |}]> (encodings st)))
    | None => (Throw TypeError, st)
    end.

End Tokenizer.

(** [compressPromptDefault(prompt)]: the three passes, with the stopword
    array read from the module ./data.  A value without a [replace] method
    makes the first pass throw. *)
Definition compressPromptDefault (prompt : value) : M jsstring :=
  match prompt with
  | VString s => fun st => (Return (compress_default (stopwords_english st) s), st)
  | _ => throw TypeError
  end.

Module BasePrompt.

Record t := {
  request : ref;
  tiktokenEncoding : handle;
  openai : OpenAIApi;
}.

Section Methods.
Context {tiktoken : Tiktoken}.

Definition constructor (request : ref) (openai : OpenAIApi) : M t :=
  let* req := read_request request in
  let* tiktokenEncoding := encoding_for_model (model req) in
  ret {| request := request; tiktokenEncoding := tiktokenEncoding; openai := openai |}.

(** [this.request.prompt.length]. *)
Definition estimatedPromptCost (this : t) : M value :=
  let* req := read_request (request this) in
  match prompt req with
  | VString s => ret (VNumber (Z.of_nat (length s)))
  | VArray elems => ret (VNumber (Z.of_nat (length elems)))
  | VUndefined | VNull => throw TypeError
  | VBool _ | VNumber _ => ret VUndefined
  end.

Definition tokensCount (this : t) : M nat :=
  let* req := read_request (request this) in
  let* tokens := tiktoken_encode (tiktokenEncoding this) (prompt req) in
  tiktoken_free (tiktokenEncoding this) ;;;
  ret (length tokens).

Definition tokens (this : t) : M (list N) :=
  let* req := read_request (request this) in
  let* tokens := tiktoken_encode (tiktokenEncoding this) (prompt req) in
  tiktoken_free (tiktokenEncoding this) ;;;
  ret tokens.

Definition getPrompt (this : t) : M value :=
  let* req := read_request (request this) in
  ret (prompt req).

End Methods.

End BasePrompt.

Module DietPromptCompletion.

Record t := {
  openAiConfiguration : Configuration;
  openAICompletionRequest : ref;
  compressionType : CompressionType.t;
  originalPrompt : BasePrompt.t;
  dietPrompt : option BasePrompt.t;
  openai : OpenAIApi;
}.

Section Methods.
Context {tiktoken : Tiktoken}.

(** The method [compressPrompt]: a [switch] on [this.compressionType]
    with the one case default; any other type falls out of the switch
    and the method returns [undefined]. *)
Definition compressPrompt (compressionType : CompressionType.t) (prompt : value) : M value :=
  match compressionType with
  | CompressionType.default =>
      let* s := compressPromptDefault prompt in ret (VString s)
  | _ => ret VUndefined
  end.

(** The test that guards the first [throw] of the constructor, operand
    by operand as the source writes it. *)
Definition prompt_or_model_missing (req : CreateCompletionRequest) : bool :=
  truthy (js_or (js_or (js_or (is_undefined (prompt req)) VNull)
                       (is_undefined (model req))) VNull).

(** The constructor.  An omitted third argument is the type default. *)
Definition constructor (openAiConfiguration : Configuration)
    (openAICompletionRequest : ref)
    (compressionType_arg : option CompressionType.t) : M t :=
  let compressionType := CompressionType.or_default compressionType_arg in
  let openai := {| configuration := openAiConfiguration |} in
  let* req := read_request openAICompletionRequest in
  if prompt_or_model_missing req then
    throw (Error "Prompt and Model are required")
  else if negb (JsString.eqb (typeof (prompt req)) (lit "string")) then
    throw (Error "Prompt must be a string.")
  else
    let* originalPrompt := BasePrompt.constructor openAICompletionRequest openai in
    match compressionType with
    | CompressionType.none =>
        ret {| openAiConfiguration := openAiConfiguration;
               openAICompletionRequest := openAICompletionRequest;
               compressionType := compressionType;
               originalPrompt := originalPrompt;
               dietPrompt := None;
               openai := openai |}
    | _ =>
        let* req := read_request openAICompletionRequest in
        let* dietPrompt := compressPrompt compressionType (prompt req) in
        write_prompt openAICompletionRequest dietPrompt ;;;
        let* diet := BasePrompt.constructor openAICompletionRequest openai in
        ret {| openAiConfiguration := openAiConfiguration;
               openAICompletionRequest := openAICompletionRequest;
               compressionType := compressionType;
               originalPrompt := originalPrompt;
               dietPrompt := Some diet;
               openai := openai |}
    end.

(** [originalRequest()] hands out the request object itself. *)
Definition originalRequest (this : t) : M ref :=
  ret (openAICompletionRequest this).

End Methods.

End DietPromptCompletion.

(** ** A tokenizer and a store to run the engine on *)

Module Sample.

Definition gpt35 : value := VString (lit "gpt-3.5-turbo").

(** A stand-in for the library: it knows one model and throws its
    unsupported-model error for any other, has one token per code unit, and
    refuses the text that is a lone code unit 0. *)
Definition tiktoken : Tiktoken := {|
  has_encoding m :=
    match m with
    | VString s => JsString.eqb s (lit "gpt-3.5-turbo")
    | _ => false
    end;
  model_error _ := TiktokenError UnsupportedModel;
  encode _ text :=
    match text with
    | VString [0] => None
    | VString s => Some s
    | _ => None
    end;
|}.

Definition english : list jsstring :=
  [lit "this"; lit "is"; lit "an"; lit "to"; lit "out"].

Definition config : Configuration := {| apiKey := VString (lit "sk-test") |}.

(** A store holding one request object, at reference 0. *)
Definition store_with (m p : value) : store := {|
  stopwords_english := english;
  requests := {[ 0%nat := {| model := m; prompt := p |} ]};
  encodings := ∅;
|}.

Definition api : OpenAIApi := {| configuration := config |}.

(** The two BasePrompt objects and the accounting object that construction
    on [store_with] yields: the first encoding made is 0, the second 1. *)
Definition original : BasePrompt.t :=
  {| BasePrompt.request := 0%nat; BasePrompt.tiktokenEncoding := 0%nat;
     BasePrompt.openai := api |}.

Definition diet : BasePrompt.t :=
  {| BasePrompt.request := 0%nat; BasePrompt.tiktokenEncoding := 1%nat;
     BasePrompt.openai := api |}.

Definition accounting (c : CompressionType.t) : DietPromptCompletion.t :=
  {| DietPromptCompletion.openAiConfiguration := config;
     DietPromptCompletion.openAICompletionRequest := 0%nat;
     DietPromptCompletion.compressionType := c;
     DietPromptCompletion.originalPrompt := original;
     DietPromptCompletion.dietPrompt :=
       match c with
       | CompressionType.none => None
       | CompressionType.default => Some diet
       end;
     DietPromptCompletion.openai := api |}.

(** The request of the example in the documentation of the class. *)
Definition example_prompt : jsstring :=
  lit "Hey, this is an example request to test out DietPrompt.".

(** A store in which the encoding 0, made for [gpt35], is still usable. *)
Definition store_live (p : value) : store := {|
  stopwords_english := english;
  requests := {[ 0%nat := {| model := gpt35; prompt := p |} ]};
  encodings := {[ 0%nat := {| enc_model := gpt35; enc_freed := false |} ]};
|}.

(** A store with two sessions' worth of objects: the request 0 that is
    about to be constructed on, and the request 1 of an earlier session whose
    BasePrompt [other] holds the usable encoding 0. *)
Definition store_two (p : value) : store := {|
  stopwords_english := english;
  requests := {[ 0%nat := {| model := gpt35; prompt := p |};
                 1%nat := {| model := gpt35; prompt := VString (lit "Keep me, please.") |} ]};
  encodings := {[ 0%nat := {| enc_model := gpt35; enc_freed := false |} ]};
|}.

Definition other : BasePrompt.t :=
  {| BasePrompt.request := 1%nat; BasePrompt.tiktokenEncoding := 0%nat;
     BasePrompt.openai := api |}.

End Sample.

(** ** Predicates on computations *)

(** A computation that leaves the stopword array as it found it. *)
Definition stopwords_kept {A} (m : M A) : Prop :=
  forall st, stopwords_english (snd (m st)) = stopwords_english st.

(** The encoding behind [h] is usable in [st]: made for [m], not released. *)
Definition live (st : store) (h : handle) (m : value) : Prop :=
  encodings st !! h = Some {| enc_model := m; enc_freed := false |}.

(** The encoding behind [h] has been released in [st]. *)
Definition released (st : store) (h : handle) : Prop :=
  exists m, encodings st !! h = Some {| enc_model := m; enc_freed := true |}.

Local Close Scope N_scope.

(** ** Strings: joining, splitting and filtering *)

Section StringFacts.
Implicit Types (s w sep : jsstring) (l : list jsstring) (x c d : N).

Lemma join_singleton sep w : JsString.join sep [w] = w.
Proof. reflexivity. Qed.

Lemma join_cons_cons sep w w' l :
  JsString.join sep (w :: w' :: l) = w ++ sep ++ JsString.join sep (w' :: l).
Proof. reflexivity. Qed.

Lemma join_length_cons sep w l :
  length (JsString.join sep (w :: l)) =
  length w + match l with
             | [] => 0
             | _ => length sep + length (JsString.join sep l)
             end.
Proof.
  destruct l as [|w' l]; [rewrite join_singleton; lia|].
  rewrite join_cons_cons, !length_app. reflexivity.
Qed.

(** Dropping elements of an array never lengthens its join. *)
Lemma join_filter_length sep (p : jsstring -> bool) l :
  length (JsString.join sep (List.filter p l)) <= length (JsString.join sep l).
Proof.
  induction l as [|w l IH]; [reflexivity|].
  cbn [List.filter]. destruct (p w).
  - destruct (List.filter p l) as [|j js] eqn:Ef.
    + rewrite join_singleton, join_length_cons. lia.
    + destruct l as [|w' l]; [discriminate Ef|].
      rewrite !join_cons_cons, !length_app. lia.
  - rewrite join_length_cons.
    destruct l as [|w' l]; [cbn; lia | cbv beta iota; lia].
Qed.

Lemma join_split_chars s : JsString.join [] (JsString.split_chars s) = s.
Proof.
  induction s as [|c s IH]; [reflexivity|].
  destruct s as [|c' s]; [reflexivity|].
  change (JsString.split_chars (c :: c' :: s))
    with ([c] :: [c'] :: JsString.split_chars s).
  rewrite join_cons_cons.
  change ([c'] :: JsString.split_chars s) with (JsString.split_chars (c' :: s)).
  rewrite IH. reflexivity.
Qed.

Lemma split_on_cons c' d s :
  JsString.split_on d (c' :: s) =
  if (c' =? d)%N then [] :: JsString.split_on d s
  else match JsString.split_on d s with
       | w :: ws => (c' :: w) :: ws
       | [] => [[c']]
       end.
Proof. reflexivity. Qed.

Lemma split_on_nonempty d s : JsString.split_on d s <> [].
Proof.
  destruct s as [|c s]; [discriminate|].
  rewrite split_on_cons. destruct (c =? d)%N; [discriminate|].
  destruct (JsString.split_on d s); discriminate.
Qed.

(** Splitting on a code unit and joining on it gives the string back. *)
Lemma join_split_on d s : JsString.join [d] (JsString.split_on d s) = s.
Proof.
  induction s as [|c s IH]; [reflexivity|].
  rewrite split_on_cons.
  pose proof (split_on_nonempty d s) as Hne.
  destruct (JsString.split_on d s) as [|w ws]; [contradiction|].
  destruct (N.eqb_spec c d) as [->|_].
  - rewrite join_cons_cons, IH. reflexivity.
  - destruct ws as [|w' ws].
    + rewrite join_singleton in *. rewrite IH. reflexivity.
    + rewrite join_cons_cons in *. rewrite <- IH. reflexivity.
Qed.

Lemma elem_of_join sep l x :
  x ∈ JsString.join sep l -> x ∈ sep \/ exists w, w ∈ l /\ x ∈ w.
Proof.
  induction l as [|w l IH]; [intros H; inversion H|].
  destruct l as [|w' l].
  - rewrite join_singleton. intros H. right. exists w. split; [left | exact H].
  - rewrite join_cons_cons, !elem_of_app. intros [H|[H|H]].
    + right. exists w. split; [left | exact H].
    + left. exact H.
    + destruct (IH H) as [Hs|(w0 & Hw0 & Hx)]; [left; exact Hs|].
      right. exists w0. split; [right; exact Hw0 | exact Hx].
Qed.

Lemma elem_of_filter_bool (p : jsstring -> bool) l w :
  w ∈ List.filter p l -> w ∈ l /\ p w = true.
Proof. rewrite !list_elem_of_In. apply filter_In. Qed.

Lemma elem_of_split_on d s w x :
  w ∈ JsString.split_on d s -> x ∈ w -> x ∈ s.
Proof.
  revert w. induction s as [|c s IH]; intros w Hw Hx.
  - apply list_elem_of_singleton in Hw. subst w. exact Hx.
  - rewrite split_on_cons in Hw. destruct (c =? d)%N.
    + apply elem_of_cons in Hw as [->|Hw]; [inversion Hx|].
      right. exact (IH w Hw Hx).
    + destruct (JsString.split_on d s) as [|w0 ws].
      * apply list_elem_of_singleton in Hw. subst w.
        apply list_elem_of_singleton in Hx. subst x. left.
      * apply elem_of_cons in Hw as [->|Hw].
        -- apply elem_of_cons in Hx as [->|Hx]; [left|].
           right. apply (IH w0); [left | exact Hx].
        -- right. apply (IH w); [right; exact Hw | exact Hx].
Qed.

End StringFacts.

(** ** The three passes *)

Lemma replace_do_not_cons c1 tl :
  replace_do_not (c1 :: tl) =
  match tl with
  | c2 :: c3 :: c4 :: c5 :: c6 :: rest =>
      if matches_do_not c1 c2 c3 c4 c5 c6
      then lit "don't" ++ replace_do_not rest
      else c1 :: replace_do_not tl
  | _ => c1 :: replace_do_not tl
  end.
Proof. destruct tl; reflexivity. Qed.

(** The contraction is one code unit shorter than the phrase it replaces. *)
Lemma replace_do_not_length s : length (replace_do_not s) <= length s.
Proof.
  assert (H : forall n s, length s <= n -> length (replace_do_not s) <= length s).
  { clear s. induction n as [|n IH]; intros s Hs.
    - destruct s; [reflexivity | cbn [length] in Hs; lia].
    - destruct s as [|c1 tl]; [reflexivity|].
      cbn [length] in Hs. rewrite replace_do_not_cons.
      assert (Htl : length (replace_do_not tl) <= length tl) by (apply IH; lia).
      destruct tl as [|c2 [|c3 [|c4 [|c5 [|c6 rest]]]]];
        try (cbn [length] in *; lia).
      destruct (matches_do_not c1 c2 c3 c4 c5 c6); [|cbn [length] in *; lia].
      rewrite length_app. change (length (lit "don't")) with 5.
      specialize (IH rest). cbn [length] in *. lia. }
  exact (H (length s) s (le_n _)).
Qed.

Lemma remove_punctuation_length s : length (remove_punctuation s) <= length s.
Proof.
  unfold remove_punctuation.
  etransitivity; [apply join_filter_length|].
  rewrite join_split_chars. reflexivity.
Qed.

Lemma remove_stopwords_length english s :
  length (remove_stopwords english s) <= length s.
Proof.
  unfold remove_stopwords. change (lit " ") with [32%N].
  etransitivity; [apply join_filter_length|].
  rewrite join_split_on. reflexivity.
Qed.

Lemma compress_default_length english s :
  length (compress_default english s) <= length s.
Proof.
  unfold compress_default.
  etransitivity; [apply remove_stopwords_length|].
  etransitivity; [apply remove_punctuation_length|].
  apply replace_do_not_length.
Qed.

(** What survives the punctuation pass is no punctuation. *)
Lemma remove_punctuation_elem s x :
  x ∈ remove_punctuation s -> JsString.includes PUNCTUATION [x] = false /\ x ∈ s.
Proof.
  unfold remove_punctuation. intros H.
  apply elem_of_join in H as [H|(w & Hw & Hx)]; [inversion H|].
  apply elem_of_filter_bool in Hw as [Hw Hp].
  apply list_elem_of_In, in_map_iff in Hw as (c & <- & Hc).
  apply list_elem_of_singleton in Hx. subst c.
  split; [apply negb_true_iff, Hp | apply list_elem_of_In, Hc].
Qed.

(** The stopword pass only rearranges what it is given around spaces. *)
Lemma remove_stopwords_elem english s x :
  x ∈ remove_stopwords english s -> x = 32%N \/ x ∈ s.
Proof.
  unfold remove_stopwords. change (lit " ") with [32%N]. intros H.
  apply elem_of_join in H as [H|(w & Hw & Hx)].
  - left. apply list_elem_of_singleton, H.
  - right. apply elem_of_filter_bool in Hw as [Hw _].
    exact (elem_of_split_on _ _ _ _ Hw Hx).
Qed.

(** No punctuation mark survives the whole rule. *)
Lemma compress_default_no_punctuation english s x :
  x ∈ compress_default english s -> JsString.includes PUNCTUATION [x] = false.
Proof.
  unfold compress_default. intros H.
  apply remove_stopwords_elem in H as [->|H]; [reflexivity|].
  apply remove_punctuation_elem in H. apply H.
Qed.

(** A prompt that holds a punctuation mark is changed by the rule. *)
Lemma compress_default_changes_punctuated english s x :
  x ∈ s -> JsString.includes PUNCTUATION [x] = true -> compress_default english s <> s.
Proof.
  intros Hx Hp Heq. rewrite <- Heq in Hx.
  apply compress_default_no_punctuation in Hx. congruence.
Qed.

(** ** Running computations *)

Lemma bind_Return {A B} (m : M A) (k : A -> M B) st a st' :
  m st = (Return a, st') -> bind m k st = k a st'.
Proof. unfold bind. intros ->. reflexivity. Qed.

Lemma bind_Throw {A B} (m : M A) (k : A -> M B) st e st' :
  m st = (Throw e, st') -> bind m k st = (Throw e, st').
Proof. unfold bind. intros ->. reflexivity. Qed.

Lemma read_request_Some st r req :
  requests st !! r = Some req -> read_request r st = (Return req, st).
Proof. unfold read_request. intros ->. reflexivity. Qed.

Lemma compressPromptDefault_string st t :
  compressPromptDefault (VString t) st =
  (Return (compress_default (stopwords_english st) t), st).
Proof. reflexivity. Qed.

Lemma typeof_string v :
  JsString.eqb (typeof v) (lit "string") = match v with VString _ => true | _ => false end.
Proof. destruct v; reflexivity. Qed.

Lemma prompt_or_model_missing_spec req :
  DietPromptCompletion.prompt_or_model_missing req =
  match prompt req, model req with
  | VUndefined, _ | _, VUndefined => true
  | _, _ => false
  end.
Proof. destruct req as [[] []]; reflexivity. Qed.

(** ** The compressor: claims C4, C7 and C8 *)

(** C4.  For every non-empty string [t], [compressPromptDefault(t)] returns,
    and the string it returns has at most as many code units as [t]. *)
Theorem compressPromptDefault_non_expanding (st : store) (t : jsstring) :
  t <> [] ->
  exists out,
    compressPromptDefault (VString t) st = (Return out, st) /\ length out <= length t.
Proof.
  intros _. eexists. split; [apply compressPromptDefault_string|].
  apply compress_default_length.
Qed.

Lemma compressPromptDefault_non_expanding_witness :
  exists out,
    compressPromptDefault (VString (lit "Do not go, this is it!"))
      (Sample.store_with Sample.gpt35 VUndefined)
    = (Return out, Sample.store_with Sample.gpt35 VUndefined)
    /\ length out <= length (lit "Do not go, this is it!").
Proof.
  apply (compressPromptDefault_non_expanding
           (Sample.store_with Sample.gpt35 VUndefined) (lit "Do not go, this is it!")).
  discriminate.
Defined.

(** C7.  On the prompt Do not go, the contraction pass first writes an
    apostrophe (code unit 39) and the punctuation pass then takes it out:
    whatever the stopword array holds, the output has no apostrophe. *)
Theorem do_not_go_keeps_no_apostrophe (st : store) :
  replace_do_not (lit "Do not go") = lit "don't go" /\
  39%N ∈ replace_do_not (lit "Do not go") /\
  remove_punctuation (replace_do_not (lit "Do not go")) = lit "dont go" /\
  exists out,
    compressPromptDefault (VString (lit "Do not go")) st = (Return out, st) /\
    out = remove_stopwords (stopwords_english st) (lit "dont go") /\
    39%N ∉ out.
Proof.
  split; [reflexivity|]. split; [apply list_elem_of_In; vm_compute; tauto|].
  split; [reflexivity|].
  eexists. split; [apply compressPromptDefault_string|]. split; [reflexivity|].
  intros H. apply compress_default_no_punctuation in H. discriminate H.
Qed.

(** ** The stopword array is read-only *)

Create HintDb frame.

Lemma stopwords_kept_ret {A} (a : A) : stopwords_kept (ret a).
Proof. intros st. reflexivity. Qed.

Lemma stopwords_kept_throw {A} e : stopwords_kept (@throw A e).
Proof. intros st. reflexivity. Qed.

Lemma stopwords_kept_bind {A B} (m : M A) (k : A -> M B) :
  stopwords_kept m -> (forall a, stopwords_kept (k a)) -> stopwords_kept (bind m k).
Proof.
  intros Hm Hk st. unfold bind. specialize (Hm st).
  destruct (m st) as [[a|e] st']; cbn in *; [rewrite Hk|]; exact Hm.
Qed.

Lemma stopwords_kept_read_request r : stopwords_kept (read_request r).
Proof. intros st. unfold read_request. destruct (requests st !! r); reflexivity. Qed.

Lemma stopwords_kept_write_prompt r v : stopwords_kept (write_prompt r v).
Proof. intros st. unfold write_prompt. destruct (requests st !! r); reflexivity. Qed.

Lemma stopwords_kept_compressPromptDefault v : stopwords_kept (compressPromptDefault v).
Proof. intros st. destruct v; reflexivity. Qed.

#[local] Hint Resolve stopwords_kept_ret stopwords_kept_throw stopwords_kept_read_request
  stopwords_kept_write_prompt stopwords_kept_compressPromptDefault : frame.

Ltac frame :=
  repeat match goal with
         | |- stopwords_kept (bind _ _) => apply stopwords_kept_bind; [|intros ?]
         | |- stopwords_kept (match ?x with _ => _ end) => destruct x
         | |- _ => solve [auto with frame]
         end.

Section Frame.
Context {tiktoken : Tiktoken}.

Lemma stopwords_kept_encoding_for_model m : stopwords_kept (encoding_for_model m).
Proof. intros st. unfold encoding_for_model. destruct (has_encoding m); reflexivity. Qed.

Lemma stopwords_kept_tiktoken_encode h text : stopwords_kept (tiktoken_encode h text).
Proof. intros st. unfold tiktoken_encode. repeat case_match; reflexivity. Qed.

Lemma stopwords_kept_tiktoken_free h : stopwords_kept (tiktoken_free h).
Proof. intros st. unfold tiktoken_free. repeat case_match; reflexivity. Qed.

Hint Resolve stopwords_kept_encoding_for_model stopwords_kept_tiktoken_encode
  stopwords_kept_tiktoken_free : frame.

Lemma stopwords_kept_BasePrompt_constructor r api :
  stopwords_kept (BasePrompt.constructor r api).
Proof. unfold BasePrompt.constructor. frame. Qed.

Lemma stopwords_kept_tokensCount bp : stopwords_kept (BasePrompt.tokensCount bp).
Proof. unfold BasePrompt.tokensCount. frame. Qed.

Lemma stopwords_kept_tokens bp : stopwords_kept (BasePrompt.tokens bp).
Proof. unfold BasePrompt.tokens. frame. Qed.

Hint Resolve stopwords_kept_BasePrompt_constructor : frame.

Lemma stopwords_kept_compressPrompt ct v :
  stopwords_kept (DietPromptCompletion.compressPrompt ct v).
Proof. unfold DietPromptCompletion.compressPrompt. frame. Qed.

Hint Resolve stopwords_kept_compressPrompt : frame.

Lemma stopwords_kept_constructor cfg r ct :
  stopwords_kept (DietPromptCompletion.constructor cfg r ct).
Proof. unfold DietPromptCompletion.constructor. cbv zeta. frame. Qed.

End Frame.

(** C8.  [compressPromptDefault] is deterministic.  On a string it always
    returns, it leaves the store as it found it, a second run gives the same
    string, and that string depends on nothing the engine ever changes: not
    on the request objects, not on the tokenizer objects, and running the
    constructor or a token count in between does not alter it. *)
Theorem compressPromptDefault_deterministic {tiktoken : Tiktoken} (st : store) (t : jsstring) :
  exists out,
    compressPromptDefault (VString t) st = (Return out, st) /\
    compressPromptDefault (VString t) (snd (compressPromptDefault (VString t) st))
    = (Return out, st) /\
    (forall reqs encs,
        fst (compressPromptDefault (VString t) (set_encodings (set_requests st reqs) encs))
        = Return out) /\
    (forall cfg r ct,
        fst (compressPromptDefault (VString t)
               (snd (DietPromptCompletion.constructor cfg r ct st))) = Return out) /\
    (forall bp,
        fst (compressPromptDefault (VString t) (snd (BasePrompt.tokensCount bp st)))
        = Return out /\
        fst (compressPromptDefault (VString t) (snd (BasePrompt.tokens bp st)))
        = Return out).
Proof.
  exists (compress_default (stopwords_english st) t).
  split; [reflexivity|]. split; [reflexivity|]. split; [reflexivity|].
  split; [intros cfg r ct | intros bp; split];
    rewrite compressPromptDefault_string; cbn [fst]; f_equal; f_equal.
  - apply stopwords_kept_constructor.
  - apply stopwords_kept_tokensCount.
  - apply stopwords_kept_tokens.
Qed.

(** ** Token counting: claims C10 and C3 *)

Section Tokens.
Context {tiktoken : Tiktoken}.
Implicit Types (bp : BasePrompt.t) (st : store).

(** Both methods are the same computation up to what they return. *)
Lemma tokensCount_tokens bp st :
  BasePrompt.tokensCount bp st =
  (completion_map (@length N) (fst (BasePrompt.tokens bp st)), snd (BasePrompt.tokens bp st)).
Proof.
  unfold BasePrompt.tokensCount, BasePrompt.tokens, bind, ret.
  destruct (read_request _ st) as [[req|e] st1]; [|reflexivity].
  destruct (tiktoken_encode _ _ st1) as [[toks|e] st2]; [|reflexivity].
  destruct (tiktoken_free _ st2) as [[[]|e] st3]; reflexivity.
Qed.

(** A call on a usable encoding whose [encode] returns: the tokens come
    back and the encoding is released on the way out. *)
Lemma tokens_live bp st req m toks :
  requests st !! BasePrompt.request bp = Some req ->
  live st (BasePrompt.tiktokenEncoding bp) m ->
  encode m (prompt req) = Some toks ->
  BasePrompt.tokens bp st =
  (Return toks,
   set_encodings st (<[BasePrompt.tiktokenEncoding bp :=
                         {| enc_model := m; enc_freed := true |}]> (encodings st))).
Proof.
  unfold live. intros Hreq Hlive Henc.
  unfold BasePrompt.tokens, bind, read_request, tiktoken_encode, tiktoken_free, ret.
  rewrite Hreq, Hlive. cbn. rewrite Henc, Hlive. reflexivity.
Qed.

(** A call whose [encode] throws leaves the encoding as it was. *)
Lemma tokens_encode_fails bp st req m :
  requests st !! BasePrompt.request bp = Some req ->
  live st (BasePrompt.tiktokenEncoding bp) m ->
  encode m (prompt req) = None ->
  BasePrompt.tokens bp st = (Throw (TiktokenError EncodeFailed), st).
Proof.
  unfold live. intros Hreq Hlive Henc.
  unfold BasePrompt.tokens, bind, read_request, tiktoken_encode.
  rewrite Hreq, Hlive. cbn. rewrite Henc. reflexivity.
Qed.

(** A call on a released encoding throws and changes nothing. *)
Lemma tokens_released bp st req :
  requests st !! BasePrompt.request bp = Some req ->
  released st (BasePrompt.tiktokenEncoding bp) ->
  BasePrompt.tokens bp st = (Throw (TiktokenError Released), st).
Proof.
  intros Hreq [m Hrel].
  unfold BasePrompt.tokens, bind, read_request, tiktoken_encode.
  rewrite Hreq, Hrel. reflexivity.
Qed.

Lemma released_after_free st h m :
  released (set_encodings st (<[h := {| enc_model := m; enc_freed := true |}]> (encodings st))) h.
Proof. exists m. cbn. apply lookup_insert_eq. Qed.

(** C10.  For a BasePrompt whose prompt is a string [s] and whose encoding
    is usable, [tokens()] returns the encoding of [s] and [tokensCount()],
    run from the same store, returns the length of that very sequence; and
    from any store at all the two calls end alike, [tokensCount()] with the
    length of what [tokens()] returns. *)
Theorem tokensCount_is_length_of_tokens bp st req s m toks :
  requests st !! BasePrompt.request bp = Some req ->
  prompt req = VString s ->
  live st (BasePrompt.tiktokenEncoding bp) m ->
  encode m (VString s) = Some toks ->
  fst (BasePrompt.tokens bp st) = Return toks /\
  fst (BasePrompt.tokensCount bp st) = Return (length toks) /\
  snd (BasePrompt.tokensCount bp st) = snd (BasePrompt.tokens bp st) /\
  forall bp' st',
    fst (BasePrompt.tokensCount bp' st')
    = completion_map (@length N) (fst (BasePrompt.tokens bp' st')).
Proof.
  intros Hreq Hs Hlive Henc. rewrite <- Hs in Henc.
  rewrite tokensCount_tokens, (tokens_live _ _ _ _ _ Hreq Hlive Henc). cbn.
  repeat split. intros bp' st'. rewrite tokensCount_tokens. reflexivity.
Qed.

(** C3, as the code has it.  The encoding is made by the constructor, not
    by the call.  The first [tokensCount()] that returns releases it, and
    from then on every [tokensCount()] and [tokens()] on the same object
    runs on the released encoding and throws. *)
Theorem second_call_uses_released_encoding bp st req m toks :
  requests st !! BasePrompt.request bp = Some req ->
  live st (BasePrompt.tiktokenEncoding bp) m ->
  encode m (prompt req) = Some toks ->
  exists st1,
    BasePrompt.tokensCount bp st = (Return (length toks), st1) /\
    released st1 (BasePrompt.tiktokenEncoding bp) /\
    BasePrompt.tokensCount bp st1 = (Throw (TiktokenError Released), st1) /\
    BasePrompt.tokens bp st1 = (Throw (TiktokenError Released), st1).
Proof.
  intros Hreq Hlive Henc.
  eexists. rewrite !tokensCount_tokens, (tokens_live _ _ _ _ _ Hreq Hlive Henc).
  cbn [fst snd completion_map].
  split; [reflexivity|]. split; [apply released_after_free|].
  rewrite (tokens_released bp _ req); [split; reflexivity | exact Hreq |].
  apply released_after_free.
Qed.

End Tokens.

(** ** Construction *)

Section Construction.
Context {tiktoken : Tiktoken}.
Implicit Types (st : store) (r : ref) (cfg : Configuration) (m : value) (t : jsstring).

Lemma BasePrompt_constructor_ok st r req api :
  requests st !! r = Some req ->
  has_encoding (model req) = true ->
  BasePrompt.constructor r api st =
  (Return {| BasePrompt.request := r;
             BasePrompt.tiktokenEncoding := fresh (dom (encodings st));
             BasePrompt.openai := api |},
   set_encodings st (<[fresh (dom (encodings st)) :=
                         {| enc_model := model req; enc_freed := false |}]> (encodings st))).
Proof.
  intros Hreq Hm.
  unfold BasePrompt.constructor, bind, read_request, encoding_for_model, ret.
  rewrite Hreq, Hm. reflexivity.
Qed.

Lemma BasePrompt_constructor_unsupported st r req api :
  requests st !! r = Some req ->
  has_encoding (model req) = false ->
  BasePrompt.constructor r api st = (Throw (missing_encoding_error (model req)), st).
Proof.
  intros Hreq Hm.
  unfold BasePrompt.constructor, bind, read_request, encoding_for_model.
  rewrite Hreq, Hm. reflexivity.
Qed.

(** The first check: a prompt or a model that is [undefined]. *)
Lemma constructor_missing st r cfg ct req :
  requests st !! r = Some req ->
  prompt req = VUndefined \/ model req = VUndefined ->
  DietPromptCompletion.constructor cfg r ct st
  = (Throw (Error "Prompt and Model are required"), st).
Proof.
  intros Hreq Hmiss. unfold DietPromptCompletion.constructor. cbv zeta.
  rewrite (bind_Return _ _ _ _ _ (read_request_Some _ _ _ Hreq)).
  rewrite prompt_or_model_missing_spec.
  destruct Hmiss as [-> | ->]; [reflexivity|]. destruct (prompt req); reflexivity.
Qed.

(** The second check: a prompt that is there but is no string. *)
Lemma constructor_not_string st r cfg ct req :
  requests st !! r = Some req ->
  prompt req <> VUndefined -> model req <> VUndefined ->
  (forall t, prompt req <> VString t) ->
  DietPromptCompletion.constructor cfg r ct st
  = (Throw (Error "Prompt must be a string."), st).
Proof.
  intros Hreq Hp Hm Hs. unfold DietPromptCompletion.constructor. cbv zeta.
  rewrite (bind_Return _ _ _ _ _ (read_request_Some _ _ _ Hreq)).
  rewrite prompt_or_model_missing_spec, typeof_string.
  destruct (prompt req) eqn:Ep, (model req) eqn:Em; try congruence; try reflexivity;
    exfalso; eapply Hs; reflexivity.
Qed.

Lemma prompt_or_model_present m t :
  m <> VUndefined ->
  DietPromptCompletion.prompt_or_model_missing {| model := m; prompt := VString t |} = false.
Proof.
  intros Hm. rewrite prompt_or_model_missing_spec. cbn [prompt model].
  destruct m; congruence.
Qed.

Lemma write_prompt_ok st r req v :
  requests st !! r = Some req ->
  write_prompt r v st =
  (Return tt, set_requests st (<[r := {| model := model req; prompt := v |}]> (requests st))).
Proof. unfold write_prompt. intros ->. reflexivity. Qed.

Lemma compressPrompt_default st t :
  DietPromptCompletion.compressPrompt CompressionType.default (VString t) st =
  (Return (VString (compress_default (stopwords_english st) t)), st).
Proof. reflexivity. Qed.

(** Past both checks the tokenizer library decides. *)
Lemma constructor_unsupported st r cfg ct m t :
  requests st !! r = Some {| model := m; prompt := VString t |} ->
  m <> VUndefined ->
  has_encoding m = false ->
  DietPromptCompletion.constructor cfg r ct st
  = (Throw (missing_encoding_error m), st).
Proof.
  intros Hreq Hm Hsup. unfold DietPromptCompletion.constructor. cbv zeta.
  rewrite (bind_Return _ _ _ _ _ (read_request_Some _ _ _ Hreq)).
  rewrite (prompt_or_model_present _ _ Hm), typeof_string. cbn [prompt negb].
  rewrite (bind_Throw _ _ _ _ _ (BasePrompt_constructor_unsupported _ _ _ _ Hreq Hsup)).
  reflexivity.
Qed.

(** Construction under none: one encoding is made, nothing else changes. *)
Lemma constructor_none_ok st r cfg ct m t :
  requests st !! r = Some {| model := m; prompt := VString t |} ->
  m <> VUndefined ->
  has_encoding m = true ->
  CompressionType.or_default ct = CompressionType.none ->
  DietPromptCompletion.constructor cfg r ct st =
  (Return {| DietPromptCompletion.openAiConfiguration := cfg;
             DietPromptCompletion.openAICompletionRequest := r;
             DietPromptCompletion.compressionType := CompressionType.none;
             DietPromptCompletion.originalPrompt :=
               {| BasePrompt.request := r;
                  BasePrompt.tiktokenEncoding := fresh (dom (encodings st));
                  BasePrompt.openai := {| configuration := cfg |} |};
             DietPromptCompletion.dietPrompt := None;
             DietPromptCompletion.openai := {| configuration := cfg |} |},
   set_encodings st (<[fresh (dom (encodings st)) :=
                         {| enc_model := m; enc_freed := false |}]> (encodings st))).
Proof.
  intros Hreq Hm Hsup Hct. unfold DietPromptCompletion.constructor. cbv zeta.
  rewrite Hct.
  rewrite (bind_Return _ _ _ _ _ (read_request_Some _ _ _ Hreq)).
  rewrite (prompt_or_model_present _ _ Hm), typeof_string. cbn [prompt negb].
  rewrite (bind_Return _ _ _ _ _ (BasePrompt_constructor_ok _ _ _ _ Hreq Hsup)).
  reflexivity.
Qed.

(** Construction under default: the prompt of the one request object is
    overwritten with its compression, between the making of the two
    BasePrompt objects, which both hold that object. *)
Lemma constructor_default_ok st r cfg ct m t :
  requests st !! r = Some {| model := m; prompt := VString t |} ->
  m <> VUndefined ->
  has_encoding m = true ->
  CompressionType.or_default ct = CompressionType.default ->
  DietPromptCompletion.constructor cfg r ct st =
  (Return {| DietPromptCompletion.openAiConfiguration := cfg;
             DietPromptCompletion.openAICompletionRequest := r;
             DietPromptCompletion.compressionType := CompressionType.default;
             DietPromptCompletion.originalPrompt :=
               {| BasePrompt.request := r;
                  BasePrompt.tiktokenEncoding := fresh (dom (encodings st));
                  BasePrompt.openai := {| configuration := cfg |} |};
             DietPromptCompletion.dietPrompt :=
               Some {| BasePrompt.request := r;
                       BasePrompt.tiktokenEncoding :=
                         fresh (dom (<[fresh (dom (encodings st)) :=
                                         {| enc_model := m; enc_freed := false |}]>
                                       (encodings st)));
                       BasePrompt.openai := {| configuration := cfg |} |};
             DietPromptCompletion.openai := {| configuration := cfg |} |},
   {| stopwords_english := stopwords_english st;
      requests := <[r := {| model := m;
                            prompt := VString (compress_default (stopwords_english st) t) |}]>
                    (requests st);
      encodings :=
        <[fresh (dom (<[fresh (dom (encodings st)) :=
                          {| enc_model := m; enc_freed := false |}]> (encodings st))) :=
            {| enc_model := m; enc_freed := false |}]>
          (<[fresh (dom (encodings st)) := {| enc_model := m; enc_freed := false |}]>
             (encodings st)) |}).
Proof.
  intros Hreq Hm Hsup Hct. unfold DietPromptCompletion.constructor. cbv zeta.
  rewrite Hct.
  rewrite (bind_Return _ _ _ _ _ (read_request_Some _ _ _ Hreq)).
  rewrite (prompt_or_model_present _ _ Hm), typeof_string. cbn [prompt negb].
  rewrite (bind_Return _ _ _ _ _ (BasePrompt_constructor_ok _ _ _ _ Hreq Hsup)).
  cbn [model].
  set (st1 := set_encodings st _).
  assert (Hreq1 : requests st1 !! r = Some {| model := m; prompt := VString t |})
    by exact Hreq.
  rewrite (bind_Return _ _ _ _ _ (read_request_Some _ _ _ Hreq1)). cbn [prompt].
  rewrite (bind_Return _ _ _ _ _ (compressPrompt_default st1 t)).
  rewrite (bind_Return _ _ _ _ _ (write_prompt_ok _ _ _ _ Hreq1)). cbn [model].
  set (st2 := set_requests st1 _).
  assert (Hreq2 : requests st2 !! r
                  = Some {| model := m;
                            prompt := VString (compress_default (stopwords_english st1) t) |})
    by apply lookup_insert_eq.
  rewrite (bind_Return _ _ _ _ _ (BasePrompt_constructor_ok _ _ _ _ Hreq2 Hsup)).
  reflexivity.
Qed.

(** Whatever construction returns, it returned past both checks and with
    an encoding for the model. *)
Lemma constructor_Return_inv st r cfg ct obj st' :
  DietPromptCompletion.constructor cfg r ct st = (Return obj, st') ->
  exists m t,
    requests st !! r = Some {| model := m; prompt := VString t |} /\
    m <> VUndefined /\ has_encoding m = true.
Proof.
  intros H.
  destruct (requests st !! r) as [[m p]|] eqn:Hreq.
  2:{ unfold DietPromptCompletion.constructor in H. cbv zeta in H.
      unfold bind, read_request in H. rewrite Hreq in H. discriminate. }
  assert (Hm : m = VUndefined \/ m <> VUndefined)
    by (destruct m; [left; reflexivity | right; discriminate ..]).
  destruct Hm as [Hm|Hm].
  { rewrite (constructor_missing _ _ _ _ _ Hreq (or_intror Hm)) in H. discriminate. }
  destruct p as [| | | |t|];
    try (rewrite (constructor_not_string _ _ _ _ _ Hreq) in H;
         [discriminate | cbn; discriminate | exact Hm | cbn; discriminate]).
  { rewrite (constructor_missing _ _ _ _ _ Hreq (or_introl eq_refl)) in H. discriminate. }
  exists m, t. split; [reflexivity|]. split; [exact Hm|].
  destruct (has_encoding m) eqn:Hsup; [reflexivity|].
  rewrite (constructor_unsupported _ _ _ _ _ _ Hreq Hm Hsup) in H. discriminate.
Qed.

End Construction.

(** ** The accounting object: claims C5, C6, C2, C1 and C9 *)

Section Accounting.
Context {tiktoken : Tiktoken}.
Implicit Types (st : store) (r : ref) (cfg : Configuration) (m : value) (t : jsstring).

(** C5.  For every construction that succeeds, the compressed side exists
    iff the compression type is not none: [dietPrompt] is defined under
    default and [undefined] under none. *)
Theorem dietPrompt_defined_iff_not_none st r cfg ct obj st' :
  DietPromptCompletion.constructor cfg r ct st = (Return obj, st') ->
  DietPromptCompletion.compressionType obj = CompressionType.or_default ct /\
  (is_Some (DietPromptCompletion.dietPrompt obj)
   <-> DietPromptCompletion.compressionType obj <> CompressionType.none) /\
  (DietPromptCompletion.compressionType obj = CompressionType.default ->
   is_Some (DietPromptCompletion.dietPrompt obj)) /\
  (DietPromptCompletion.compressionType obj = CompressionType.none ->
   DietPromptCompletion.dietPrompt obj = None).
Proof.
  intros H. destruct (constructor_Return_inv _ _ _ _ _ _ H) as (m & t & Hreq & Hm & Hsup).
  destruct (CompressionType.or_default ct) eqn:Hct.
  - rewrite (constructor_none_ok _ _ _ _ _ _ Hreq Hm Hsup Hct) in H.
    injection H as <- <-. cbn. repeat split; try congruence.
    intros [? ?]; discriminate.
  - rewrite (constructor_default_ok _ _ _ _ _ _ Hreq Hm Hsup Hct) in H.
    injection H as <- <-. cbn. repeat split; eauto; discriminate.
Qed.

(** C6, amended.  The statement is about requests in which neither the
    prompt nor the model is [null]; it says nothing about a request that
    holds a [null].  For such a request: construction throws the error
    Prompt and Model are required when the prompt or the model is
    [undefined]; it throws the error Prompt must be a string when both are
    there and the prompt is no string; a prompt that is a string, empty or
    not, passes both checks, and construction then succeeds if the tokenizer
    library has an encoding for the model and otherwise throws what that
    library throws for the model.  A construction that throws leaves the
    store as it was. *)
Theorem constructor_validation st r cfg ct req :
  requests st !! r = Some req ->
  prompt req <> VNull ->
  model req <> VNull ->
  match prompt req, model req with
  | VUndefined, _ | _, VUndefined =>
      DietPromptCompletion.constructor cfg r ct st
      = (Throw (Error "Prompt and Model are required"), st)
  | VString t, m =>
      if has_encoding m
      then exists obj st',
          DietPromptCompletion.constructor cfg r ct st = (Return obj, st')
      else DietPromptCompletion.constructor cfg r ct st
           = (Throw (model_error m), st)
  | _, _ =>
      DietPromptCompletion.constructor cfg r ct st
      = (Throw (Error "Prompt must be a string."), st)
  end.
Proof.
  intros Hreq Hp Hm.
  assert (Hmu : model req = VUndefined \/ model req <> VUndefined)
    by (destruct (model req); [left; reflexivity | right; discriminate ..]).
  destruct Hmu as [Hmu|Hmu].
  { rewrite (constructor_missing _ _ _ _ _ Hreq (or_intror Hmu)), Hmu.
    destruct (prompt req); reflexivity. }
  destruct req as [m p]. cbn [prompt model] in *.
  destruct p as [| | | |t|].
  - rewrite (constructor_missing _ _ _ _ _ Hreq (or_introl eq_refl)). reflexivity.
  - congruence.
  - rewrite (constructor_not_string _ _ _ _ _ Hreq); try (cbn; congruence).
    destruct m; congruence.
  - rewrite (constructor_not_string _ _ _ _ _ Hreq); try (cbn; congruence).
    destruct m; congruence.
  - assert (Hgoal :
        if has_encoding m
        then exists obj st',
            DietPromptCompletion.constructor cfg r ct st = (Return obj, st')
        else DietPromptCompletion.constructor cfg r ct st
             = (Throw (missing_encoding_error m), st)).
    { destruct (has_encoding m) eqn:Hsup.
      - destruct (CompressionType.or_default ct) eqn:Hct.
        + eexists _, _. exact (constructor_none_ok _ _ _ _ _ _ Hreq Hmu Hsup Hct).
        + eexists _, _. exact (constructor_default_ok _ _ _ _ _ _ Hreq Hmu Hsup Hct).
      - exact (constructor_unsupported _ _ _ _ _ _ Hreq Hmu Hsup). }
    destruct m; try congruence; exact Hgoal.
  - rewrite (constructor_not_string _ _ _ _ _ Hreq); try (cbn; congruence).
    destruct m; congruence.
Qed.

(** C2, amended.  Under the compression type none the constructor does not
    compress: it never calls [compressPrompt], the request objects are as
    they were, no compressed side is made, and [originalPrompt.getPrompt()]
    returns the text [t] that was passed in. *)
Theorem construction_under_none_keeps_prompt st r cfg m t :
  requests st !! r = Some {| model := m; prompt := VString t |} ->
  m <> VUndefined ->
  has_encoding m = true ->
  exists obj st',
    DietPromptCompletion.constructor cfg r (Some CompressionType.none) st
    = (Return obj, st') /\
    requests st' = requests st /\
    DietPromptCompletion.dietPrompt obj = None /\
    BasePrompt.getPrompt (DietPromptCompletion.originalPrompt obj) st'
    = (Return (VString t), st').
Proof.
  intros Hreq Hm Hsup. eexists _, _.
  split; [exact (constructor_none_ok _ _ _ (Some CompressionType.none) _ _
                   Hreq Hm Hsup eq_refl)|].
  split; [reflexivity|]. split; [reflexivity|].
  unfold BasePrompt.getPrompt, bind, read_request, ret.
  cbn [BasePrompt.request DietPromptCompletion.originalPrompt requests set_encodings].
  rewrite Hreq. reflexivity.
Qed.

(** C1, as the code has it.  Under default the constructor writes the
    compressed text into the one request object that [originalPrompt]
    already holds.  For a prompt [t] that holds a punctuation mark,
    [originalPrompt.getPrompt()] then returns the compressed text, which
    is not [t]. *)
Theorem originalPrompt_reads_compressed_prompt st r cfg ct m t x :
  requests st !! r = Some {| model := m; prompt := VString t |} ->
  m <> VUndefined ->
  has_encoding m = true ->
  CompressionType.or_default ct = CompressionType.default ->
  x ∈ t ->
  JsString.includes PUNCTUATION [x] = true ->
  exists obj st',
    DietPromptCompletion.constructor cfg r ct st = (Return obj, st') /\
    BasePrompt.getPrompt (DietPromptCompletion.originalPrompt obj) st'
    = (Return (VString (compress_default (stopwords_english st) t)), st') /\
    compress_default (stopwords_english st) t <> t /\
    requests st' !! r
    = Some {| model := m; prompt := VString (compress_default (stopwords_english st) t) |}.
Proof.
  intros Hreq Hm Hsup Hct Hx Hp. eexists _, _.
  split; [exact (constructor_default_ok _ _ _ _ _ _ Hreq Hm Hsup Hct)|].
  assert (Hl : forall (reqs : gmap ref CreateCompletionRequest) v, <[r := v]> reqs !! r = Some v)
    by (intros; apply lookup_insert_eq).
  split; [|split; [exact (compress_default_changes_punctuated _ _ _ Hx Hp) | apply Hl]].
  unfold BasePrompt.getPrompt, bind, read_request, ret.
  cbn [BasePrompt.request DietPromptCompletion.originalPrompt requests].
  rewrite Hl. reflexivity.
Qed.

End Accounting.

(** ** Both sides read one request object: claim C9 *)

Section Sharing.
Context {tiktoken : Tiktoken}.
Implicit Types (st : store) (r : ref) (m : value) (t : jsstring).

(** The second encoding that construction makes is not the first. *)
Lemma fresh_handles_differ (encs : gmap handle encoding) e :
  fresh (dom (<[fresh (dom encs) := e]> encs)) <> fresh (dom encs).
Proof.
  intros Heq.
  pose proof (is_fresh (dom (<[fresh (dom encs) := e]> encs))) as Hfresh.
  rewrite Heq in Hfresh. apply Hfresh, elem_of_dom.
  rewrite lookup_insert_eq. eauto.
Qed.

(** What a token count gives on a usable encoding. *)
Lemma tokensCount_live bp st req m :
  requests st !! BasePrompt.request bp = Some req ->
  live st (BasePrompt.tiktokenEncoding bp) m ->
  fst (BasePrompt.tokensCount bp st) =
  match encode m (prompt req) with
  | Some toks => Return (length toks)
  | None => Throw (TiktokenError EncodeFailed)
  end.
Proof.
  intros Hreq Hlive. rewrite tokensCount_tokens.
  destruct (encode m (prompt req)) as [toks|] eqn:Henc.
  - rewrite (tokens_live _ _ _ _ _ Hreq Hlive Henc). reflexivity.
  - rewrite (tokens_encode_fails _ _ _ _ Hreq Hlive Henc). reflexivity.
Qed.

(** A token count on one object leaves the request objects alone, and
    the encodings of other objects usable. *)
Lemma tokensCount_keeps_others bp st req m h' m' :
  requests st !! BasePrompt.request bp = Some req ->
  live st (BasePrompt.tiktokenEncoding bp) m ->
  h' <> BasePrompt.tiktokenEncoding bp ->
  live st h' m' ->
  requests (snd (BasePrompt.tokensCount bp st)) = requests st /\
  live (snd (BasePrompt.tokensCount bp st)) h' m'.
Proof.
  intros Hreq Hlive Hne Hlive'. rewrite tokensCount_tokens. cbn [snd].
  destruct (encode m (prompt req)) as [toks|] eqn:Henc.
  - rewrite (tokens_live _ _ _ _ _ Hreq Hlive Henc). cbn [snd]. split; [reflexivity|].
    unfold live in *. cbn [encodings set_encodings].
    rewrite lookup_insert_ne by congruence. exact Hlive'.
  - rewrite (tokens_encode_fails _ _ _ _ Hreq Hlive Henc). split; [reflexivity | exact Hlive'].
Qed.

(** C9.  After a construction under default that succeeds, the two sides
    hold the same request object.  Both [getPrompt()] calls return the
    compressed prompt, both [estimatedPromptCost()] calls return its
    length, and the first [tokensCount()] of each side, whether run from
    the store that construction left or one after the other, gives the
    same result: the length of the encoding of the compressed prompt. *)
Theorem both_sides_share_the_request st r cfg ct obj st' :
  DietPromptCompletion.constructor cfg r ct st = (Return obj, st') ->
  DietPromptCompletion.compressionType obj = CompressionType.default ->
  exists diet m t,
    let original := DietPromptCompletion.originalPrompt obj in
    let compressed := compress_default (stopwords_english st) t in
    let count := match encode m (VString compressed) with
                 | Some toks => Return (length toks)
                 | None => Throw (TiktokenError EncodeFailed)
                 end in
    requests st !! r = Some {| model := m; prompt := VString t |} /\
    DietPromptCompletion.dietPrompt obj = Some diet /\
    BasePrompt.request original = BasePrompt.request diet /\
    BasePrompt.getPrompt original st' = (Return (VString compressed), st') /\
    BasePrompt.getPrompt diet st' = (Return (VString compressed), st') /\
    BasePrompt.estimatedPromptCost original st'
    = (Return (VNumber (Z.of_nat (length compressed))), st') /\
    BasePrompt.estimatedPromptCost diet st'
    = (Return (VNumber (Z.of_nat (length compressed))), st') /\
    fst (BasePrompt.tokensCount original st') = count /\
    fst (BasePrompt.tokensCount diet st') = count /\
    fst (BasePrompt.tokensCount diet (snd (BasePrompt.tokensCount original st'))) = count.
Proof.
  intros H Hdef.
  destruct (constructor_Return_inv _ _ _ _ _ _ H) as (m & t & Hreq & Hm & Hsup).
  assert (Hct : CompressionType.or_default ct = CompressionType.default).
  { destruct (CompressionType.or_default ct) eqn:Hct; [|reflexivity].
    rewrite (constructor_none_ok _ _ _ _ _ _ Hreq Hm Hsup Hct) in H.
    injection H as <- <-. discriminate Hdef. }
  rewrite (constructor_default_ok _ _ _ _ _ _ Hreq Hm Hsup Hct) in H.
  injection H as <- <-. clear Hdef.
  set (e := {| enc_model := m; enc_freed := false |}).
  set (h0 := fresh (dom (encodings st))).
  set (h1 := fresh (dom (<[h0 := e]> (encodings st)))).
  set (c := compress_default (stopwords_english st) t).
  set (st' := {| stopwords_english := stopwords_english st;
                 requests := <[r := {| model := m; prompt := VString c |}]> (requests st);
                 encodings := <[h1 := e]> (<[h0 := e]> (encodings st)) |}).
  assert (Hne : h1 <> h0) by apply fresh_handles_differ.
  assert (Hreq' : requests st' !! r = Some {| model := m; prompt := VString c |})
    by apply lookup_insert_eq.
  assert (Hlive0 : live st' h0 m).
  { unfold live, st'. cbn [encodings].
    rewrite lookup_insert_ne by congruence. apply lookup_insert_eq. }
  assert (Hlive1 : live st' h1 m) by apply lookup_insert_eq.
  eexists _, m, t. cbv zeta.
  cbn [DietPromptCompletion.originalPrompt DietPromptCompletion.dietPrompt BasePrompt.request].
  split; [exact Hreq|]. split; [reflexivity|]. split; [reflexivity|].
  assert (Hget : forall bp, BasePrompt.request bp = r ->
              BasePrompt.getPrompt bp st' = (Return (VString c), st')).
  { intros bp <-. unfold BasePrompt.getPrompt.
    rewrite (bind_Return _ _ _ _ _ (read_request_Some _ _ _ Hreq')). reflexivity. }
  assert (Hcost : forall bp, BasePrompt.request bp = r ->
              BasePrompt.estimatedPromptCost bp st'
              = (Return (VNumber (Z.of_nat (length c))), st')).
  { intros bp <-. unfold BasePrompt.estimatedPromptCost.
    rewrite (bind_Return _ _ _ _ _ (read_request_Some _ _ _ Hreq')). reflexivity. }
  split; [apply Hget; reflexivity|]. split; [apply Hget; reflexivity|].
  split; [apply Hcost; reflexivity|]. split; [apply Hcost; reflexivity|].
  set (bp0 := {| BasePrompt.request := r; BasePrompt.tiktokenEncoding := h0;
                 BasePrompt.openai := {| configuration := cfg |} |}).
  set (bp1 := {| BasePrompt.request := r; BasePrompt.tiktokenEncoding := h1;
                 BasePrompt.openai := {| configuration := cfg |} |}).
  split; [exact (tokensCount_live bp0 st' _ m Hreq' Hlive0)|].
  split; [exact (tokensCount_live bp1 st' _ m Hreq' Hlive1)|].
  destruct (tokensCount_keeps_others bp0 st' _ m h1 m Hreq' Hlive0 Hne Hlive1)
    as [Hreqs Hlive1'].
  refine (tokensCount_live bp1 _ {| model := m; prompt := VString c |} m _ Hlive1').
  rewrite Hreqs. exact Hreq'.
Qed.

End Sharing.

(** ** The theorems at work on the sample store *)

Lemma tokensCount_is_length_of_tokens_witness :
  fst (@BasePrompt.tokens Sample.tiktoken Sample.original
         (Sample.store_live (VString (lit "dont go")))) = Return (lit "dont go") /\
  fst (@BasePrompt.tokensCount Sample.tiktoken Sample.original
         (Sample.store_live (VString (lit "dont go")))) = Return 7.
Proof.
  destruct (@tokensCount_is_length_of_tokens Sample.tiktoken Sample.original
              (Sample.store_live (VString (lit "dont go")))
              {| model := Sample.gpt35; prompt := VString (lit "dont go") |}
              (lit "dont go") Sample.gpt35 (lit "dont go"))
    as (Htokens & Hcount & _); [reflexivity ..|].
  split; [exact Htokens | exact Hcount].
Defined.

Lemma second_call_uses_released_encoding_witness :
  exists st1,
    @BasePrompt.tokensCount Sample.tiktoken Sample.original
      (Sample.store_live (VString (lit "dont go"))) = (Return 7, st1) /\
    released st1 0 /\
    @BasePrompt.tokensCount Sample.tiktoken Sample.original st1
    = (Throw (TiktokenError Released), st1) /\
    @BasePrompt.tokens Sample.tiktoken Sample.original st1
    = (Throw (TiktokenError Released), st1).
Proof.
  apply (@second_call_uses_released_encoding Sample.tiktoken Sample.original
           (Sample.store_live (VString (lit "dont go")))
           {| model := Sample.gpt35; prompt := VString (lit "dont go") |}
           Sample.gpt35 (lit "dont go")); reflexivity.
Defined.

Lemma dietPrompt_defined_iff_not_none_witness :
  is_Some (DietPromptCompletion.dietPrompt (Sample.accounting CompressionType.default)) /\
  DietPromptCompletion.dietPrompt (Sample.accounting CompressionType.none) = None.
Proof.
  split.
  - eapply (@dietPrompt_defined_iff_not_none Sample.tiktoken
              (Sample.store_with Sample.gpt35 (VString Sample.example_prompt))
              0 Sample.config None (Sample.accounting CompressionType.default));
      reflexivity.
  - eapply (@dietPrompt_defined_iff_not_none Sample.tiktoken
              (Sample.store_with Sample.gpt35 (VString Sample.example_prompt))
              0 Sample.config (Some CompressionType.none)
              (Sample.accounting CompressionType.none));
      reflexivity.
Defined.

(** The error scenario of the specification: the prompt 123. *)
Lemma constructor_validation_witness :
  @DietPromptCompletion.constructor Sample.tiktoken Sample.config 0 None
    (Sample.store_with Sample.gpt35 (VNumber 123))
  = (Throw (Error "Prompt must be a string."), Sample.store_with Sample.gpt35 (VNumber 123)).
Proof.
  apply (@constructor_validation Sample.tiktoken
           (Sample.store_with Sample.gpt35 (VNumber 123)) 0 Sample.config None
           {| model := Sample.gpt35; prompt := VNumber 123 |});
    [reflexivity | discriminate | discriminate].
Defined.

(** C6 as stated fails: an empty prompt is no non-empty string, and
    construction on it succeeds. *)
Lemma constructor_accepts_empty_prompt :
  fst (@DietPromptCompletion.constructor Sample.tiktoken Sample.config 0 None
         (Sample.store_with Sample.gpt35 (VString [])))
  = Return (Sample.accounting CompressionType.default).
Proof. vm_compute. reflexivity. Qed.

(** C2 as stated fails: under none, [compressPrompt] returns [undefined],
    not the text it was given. *)
Lemma compressPrompt_none_is_not_identity :
  fst (DietPromptCompletion.compressPrompt CompressionType.none (VString (lit "abc"))
         (Sample.store_with Sample.gpt35 (VString (lit "abc"))))
  = Return VUndefined /\
  Return VUndefined <> Return (VString (lit "abc")).
Proof. split; [reflexivity | discriminate]. Qed.

Lemma construction_under_none_keeps_prompt_witness :
  exists obj st',
    @DietPromptCompletion.constructor Sample.tiktoken Sample.config 0
      (Some CompressionType.none) (Sample.store_with Sample.gpt35 (VString (lit "Do not go")))
    = (Return obj, st') /\
    requests st' = requests (Sample.store_with Sample.gpt35 (VString (lit "Do not go"))) /\
    DietPromptCompletion.dietPrompt obj = None /\
    @BasePrompt.getPrompt (DietPromptCompletion.originalPrompt obj) st'
    = (Return (VString (lit "Do not go")), st').
Proof.
  apply (@construction_under_none_keeps_prompt Sample.tiktoken
           (Sample.store_with Sample.gpt35 (VString (lit "Do not go")))
           0 Sample.config Sample.gpt35 (lit "Do not go"));
    [reflexivity | discriminate | reflexivity].
Defined.

(** The example of the class documentation: after construction the original
    side no longer reads the prompt that was passed in. *)
Lemma originalPrompt_reads_compressed_prompt_witness :
  exists obj st',
    @DietPromptCompletion.constructor Sample.tiktoken Sample.config 0 None
      (Sample.store_with Sample.gpt35 (VString Sample.example_prompt)) = (Return obj, st') /\
    BasePrompt.getPrompt (DietPromptCompletion.originalPrompt obj) st'
    = (Return (VString (lit "Hey example request test DietPrompt")), st') /\
    lit "Hey example request test DietPrompt" <> Sample.example_prompt.
Proof.
  destruct (@originalPrompt_reads_compressed_prompt Sample.tiktoken
              (Sample.store_with Sample.gpt35 (VString Sample.example_prompt))
              0 Sample.config None Sample.gpt35 Sample.example_prompt 44%N)
    as (obj & st' & Hrun & Hget & Hne & _);
    [reflexivity | discriminate | reflexivity | reflexivity
    | apply (bool_decide_unpack _); vm_compute; exact I | reflexivity |].
  exists obj, st'. split; [exact Hrun|]. split; [exact Hget | exact Hne].
Defined.

Lemma both_sides_share_the_request_witness :
  exists diet,
    DietPromptCompletion.dietPrompt (Sample.accounting CompressionType.default) = Some diet /\
    BasePrompt.request
      (DietPromptCompletion.originalPrompt (Sample.accounting CompressionType.default))
    = BasePrompt.request diet.
Proof.
  edestruct (@both_sides_share_the_request Sample.tiktoken
               (Sample.store_with Sample.gpt35 (VString Sample.example_prompt))
               0 Sample.config None (Sample.accounting CompressionType.default))
    as (diet & m & t & _ & Hdiet & Hshare & _); [reflexivity | reflexivity |].
  exists diet. split; [exact Hdiet | exact Hshare].
Defined.

(** ** More on the compression rule *)

Section MoreStringFacts.
Implicit Types (s w : jsstring) (l : list jsstring) (x c d : N).

Lemma filter_all {A} (p : A -> bool) (l : list A) :
  (forall a, a ∈ l -> p a = true) -> List.filter p l = l.
Proof.
  induction l as [|a l IH]; intros Hall; [reflexivity|].
  cbn [List.filter]. rewrite (Hall a) by left.
  rewrite IH; [reflexivity|]. intros b Hb. apply Hall. right. exact Hb.
Qed.

Lemma filter_length_lt {A} (p : A -> bool) (l : list A) a :
  a ∈ l -> p a = false -> length (List.filter p l) < length l.
Proof.
  induction l as [|b l IH]; intros Ha Hp; [inversion Ha|].
  pose proof (List.filter_length_le p l) as Hle.
  cbn [List.filter length]. apply elem_of_cons in Ha as [<-|Ha].
  - rewrite Hp. lia.
  - specialize (IH Ha Hp). destruct (p b); cbn [length]; lia.
Qed.

Lemma join_filter_split_chars (p : jsstring -> bool) s :
  JsString.join [] (List.filter p (JsString.split_chars s))
  = List.filter (fun c => p [c]) s.
Proof.
  induction s as [|c s IH]; [reflexivity|].
  change (JsString.split_chars (c :: s)) with ([c] :: JsString.split_chars s).
  cbn [List.filter]. unfold JsString.code_unit in *.
  destruct (p [c]); [|exact IH].
  rewrite <- IH.
  destruct (List.filter p (JsString.split_chars s)) as [|w l]; reflexivity.
Qed.

(** The punctuation pass is a filter on code units. *)
Lemma remove_punctuation_filter s :
  remove_punctuation s
  = List.filter (fun c => negb (JsString.includes PUNCTUATION [c])) s.
Proof. unfold remove_punctuation. apply join_filter_split_chars. Qed.

(** A word without the delimiter, followed by the delimiter, is split off. *)
Lemma split_on_app d w s :
  d ∉ w -> JsString.split_on d (w ++ d :: s) = w :: JsString.split_on d s.
Proof.
  induction w as [|c w IH]; intros Hd.
  - cbn [app]. rewrite split_on_cons, N.eqb_refl. reflexivity.
  - cbn [app]. rewrite split_on_cons.
    destruct (N.eqb_spec c d) as [->|_]; [exfalso; apply Hd; left|].
    rewrite IH; [reflexivity|]. intros H. apply Hd. right. exact H.
Qed.

Lemma split_on_word d w : d ∉ w -> JsString.split_on d w = [w].
Proof.
  induction w as [|c w IH]; intros Hd; [reflexivity|].
  rewrite split_on_cons.
  destruct (N.eqb_spec c d) as [->|_]; [exfalso; apply Hd; left|].
  rewrite IH; [reflexivity|]. intros H. apply Hd. right. exact H.
Qed.

(** Joining words that are free of the delimiter and splitting again gives
    the words back, as long as there is a word at all. *)
Lemma split_on_join d l :
  l <> [] -> (forall w, w ∈ l -> d ∉ w) ->
  JsString.split_on d (JsString.join [d] l) = l.
Proof.
  induction l as [|w l IH]; intros Hne Hd; [contradiction|].
  destruct l as [|w' l].
  - rewrite join_singleton. apply split_on_word, Hd. left.
  - rewrite join_cons_cons. cbn [app].
    rewrite split_on_app by (apply Hd; left).
    rewrite IH; [reflexivity | discriminate |].
    intros w0 Hw0. apply Hd. right. exact Hw0.
Qed.

(** The words of a split are free of the delimiter. *)
Lemma split_on_words_free d s w : w ∈ JsString.split_on d s -> d ∉ w.
Proof.
  revert w. induction s as [|c s IH]; intros w Hw.
  - apply list_elem_of_singleton in Hw. subst w. apply not_elem_of_nil.
  - rewrite split_on_cons in Hw. destruct (N.eqb_spec c d) as [->|Hc].
    + apply elem_of_cons in Hw as [->|Hw]; [apply not_elem_of_nil | exact (IH w Hw)].
    + destruct (JsString.split_on d s) as [|w0 ws].
      * apply list_elem_of_singleton in Hw. subst w.
        intros H. apply list_elem_of_singleton in H. congruence.
      * apply elem_of_cons in Hw as [->|Hw].
        -- intros H. apply elem_of_cons in H as [H|H]; [congruence|].
           exact (IH w0 (ltac:(left)) H).
        -- apply IH. right. exact Hw.
Qed.

End MoreStringFacts.

Lemma replace_do_not_fixed s : contains_do_not s = false -> replace_do_not s = s.
Proof.
  induction s as [|c1 tl IH]; [reflexivity|].
  cbn [contains_do_not]. intros H. apply orb_false_iff in H as [Hhead Htl].
  rewrite replace_do_not_cons, (IH Htl).
  destruct tl as [|c2 [|c3 [|c4 [|c5 [|c6 rest]]]]]; try reflexivity.
  rewrite Hhead. reflexivity.
Qed.

Lemma replace_do_not_shortens s :
  contains_do_not s = true -> length (replace_do_not s) < length s.
Proof.
  induction s as [|c1 tl IH]; [discriminate|].
  cbn [contains_do_not]. intros H. rewrite replace_do_not_cons.
  destruct tl as [|c2 [|c3 [|c4 [|c5 [|c6 rest]]]]];
    try (cbn [orb] in H; specialize (IH H); cbn [length] in *; lia).
  destruct (matches_do_not c1 c2 c3 c4 c5 c6).
  - rewrite length_app. change (length (lit "don't")) with 5.
    pose proof (replace_do_not_length rest). cbn [length]. lia.
  - cbn [orb] in H. specialize (IH H). cbn [length] in *. lia.
Qed.

(** The six code units of a match are letters of the phrase or a space;
    none of them is a punctuation mark. *)
Lemma matches_do_not_no_punctuation c1 c2 c3 c4 c5 c6 x :
  matches_do_not c1 c2 c3 c4 c5 c6 = true ->
  x ∈ [c1; c2; c3; c4; c5; c6] ->
  JsString.includes PUNCTUATION [x] = false.
Proof.
  unfold matches_do_not, JsString.eq_ci. intros H Hx.
  repeat (apply andb_true_iff in H as [H ?]).
  repeat match goal with
         | H : (_ || _)%bool = true |- _ => apply orb_true_iff in H as [H|H]
         | H : (_ =? _)%N = true |- _ => apply N.eqb_eq in H; subst
         end;
    repeat (apply elem_of_cons in Hx as [->|Hx]; [reflexivity|]);
    inversion Hx.
Qed.

(** The contraction pass keeps every punctuation mark of its input. *)
Lemma replace_do_not_keeps_punctuation s x :
  x ∈ s -> JsString.includes PUNCTUATION [x] = true -> x ∈ replace_do_not s.
Proof.
  intros Hx Hp.
  assert (H : forall n s, length s <= n -> x ∈ s -> x ∈ replace_do_not s).
  { clear s Hx. induction n as [|n IH]; intros s Hs Hx.
    - destruct s; [inversion Hx | cbn [length] in Hs; lia].
    - destruct s as [|c1 tl]; [inversion Hx|].
      cbn [length] in Hs. rewrite replace_do_not_cons.
      assert (Htl : x ∈ c1 :: replace_do_not tl).
      { apply elem_of_cons in Hx as [->|Hx]; [left | right; apply IH; [lia | exact Hx]]. }
      destruct tl as [|c2 [|c3 [|c4 [|c5 [|c6 rest]]]]]; try exact Htl.
      destruct (matches_do_not c1 c2 c3 c4 c5 c6) eqn:Hmatch; [|exact Htl].
      apply elem_of_app. right. apply IH; [cbn [length] in Hs; lia|].
      change (c1 :: c2 :: c3 :: c4 :: c5 :: c6 :: rest)
        with ([c1; c2; c3; c4; c5; c6] ++ rest) in Hx.
      apply elem_of_app in Hx as [Hx|Hx]; [|exact Hx].
      rewrite (matches_do_not_no_punctuation _ _ _ _ _ _ _ Hmatch Hx) in Hp.
      discriminate. }
  exact (H (length s) s (le_n _) Hx).
Qed.

Lemma remove_punctuation_fixed s :
  (forall x, x ∈ s -> JsString.includes PUNCTUATION [x] = false) ->
  remove_punctuation s = s.
Proof.
  intros H. rewrite remove_punctuation_filter. apply filter_all.
  intros x Hx. cbv beta. apply negb_true_iff. exact (H x Hx).
Qed.

Lemma remove_stopwords_fixed english s :
  (forall w, w ∈ JsString.split_on 32%N s -> JsString.includes english w = false) ->
  remove_stopwords english s = s.
Proof.
  intros H. unfold remove_stopwords. rewrite filter_all.
  - change (lit " ") with [32%N]. apply join_split_on.
  - intros w Hw. cbv beta. apply negb_true_iff. exact (H w Hw).
Qed.

(** The words of the output of the stopword pass are the words it kept. *)
Lemma remove_stopwords_words english s :
  List.filter (fun word => negb (JsString.includes english word)) (JsString.split_on 32%N s)
  <> [] ->
  JsString.split_on 32%N (remove_stopwords english s)
  = List.filter (fun word => negb (JsString.includes english word))
      (JsString.split_on 32%N s).
Proof.
  intros Hne. unfold remove_stopwords. change (lit " ") with [32%N].
  apply split_on_join; [exact Hne|].
  intros w Hw. apply elem_of_filter_bool in Hw as [Hw _].
  exact (split_on_words_free _ _ _ Hw).
Qed.

Lemma remove_stopwords_idempotent english s :
  remove_stopwords english (remove_stopwords english s) = remove_stopwords english s.
Proof.
  destruct (List.filter (fun word => negb (JsString.includes english word))
              (JsString.split_on 32%N s)) as [|w0 ws] eqn:Hf.
  - assert (E : remove_stopwords english s = [])
      by (unfold remove_stopwords; rewrite Hf; reflexivity).
    rewrite E. unfold remove_stopwords. cbn [JsString.split_on List.filter].
    destruct (negb (JsString.includes english [])); reflexivity.
  - apply remove_stopwords_fixed. intros w Hw.
    rewrite remove_stopwords_words in Hw by (rewrite Hf; discriminate).
    apply elem_of_filter_bool in Hw as [_ Hw]. apply negb_true_iff, Hw.
Qed.

(** ** Further properties of [compressPromptDefault] *)

(** X1.  Whatever the prompt and the stopword array, the output of
    [compressPromptDefault] holds none of the nine punctuation marks: no
    full stop, comma, apostrophe, double quote, exclamation mark, question
    mark, semicolon, colon or hyphen-minus. *)
Theorem compressPromptDefault_strips_all_punctuation (st : store) (t : jsstring) :
  exists out,
    compressPromptDefault (VString t) st = (Return out, st) /\
    forall x, x ∈ [46; 44; 39; 34; 33; 63; 59; 58; 45]%N -> x ∉ out.
Proof.
  eexists. split; [apply compressPromptDefault_string|].
  intros x Hx Hout. apply compress_default_no_punctuation in Hout.
  repeat (apply elem_of_cons in Hx as [->|Hx]; [discriminate Hout|]).
  inversion Hx.
Qed.

(** X2.  Unless the output is empty, its words (the pieces between single
    spaces) are exactly the words of the contracted, punctuation-free prompt
    that are not in the stopword array, in their order; so no word of the
    output is a stopword. *)
Theorem compressPromptDefault_output_words (st : store) (t : jsstring) :
  exists out,
    compressPromptDefault (VString t) st = (Return out, st) /\
    (out = [] \/
     JsString.split_on 32%N out
     = List.filter (fun word => negb (JsString.includes (stopwords_english st) word))
         (JsString.split_on 32%N (remove_punctuation (replace_do_not t))) /\
     forall w, w ∈ JsString.split_on 32%N out ->
               JsString.includes (stopwords_english st) w = false).
Proof.
  eexists. split; [apply compressPromptDefault_string|].
  unfold compress_default.
  set (u := remove_punctuation (replace_do_not t)).
  destruct (List.filter (fun word => negb (JsString.includes (stopwords_english st) word))
              (JsString.split_on 32%N u)) as [|w0 ws] eqn:Hf.
  - left. unfold remove_stopwords. rewrite Hf. reflexivity.
  - right.
    assert (Hwords := remove_stopwords_words (stopwords_english st) u).
    rewrite Hf in Hwords. specialize (Hwords ltac:(discriminate)).
    split; [exact Hwords|].
    intros w Hw. rewrite Hwords, <- Hf in Hw.
    apply elem_of_filter_bool in Hw as [_ Hw]. apply negb_true_iff, Hw.
Qed.

(** X3.  A prompt in which the phrase does not occur, which holds no
    punctuation mark, and none of whose words is a stopword comes back
    unchanged; runs of spaces in it are kept as they are. *)
Theorem compressPromptDefault_fixed_point (st : store) (t : jsstring) :
  contains_do_not t = false ->
  (forall x, x ∈ t -> JsString.includes PUNCTUATION [x] = false) ->
  (forall w, w ∈ JsString.split_on 32%N t ->
             JsString.includes (stopwords_english st) w = false) ->
  compressPromptDefault (VString t) st = (Return t, st).
Proof.
  intros Hdn Hp Hw. rewrite compressPromptDefault_string. unfold compress_default.
  rewrite (replace_do_not_fixed _ Hdn), (remove_punctuation_fixed _ Hp),
    (remove_stopwords_fixed _ _ Hw).
  reflexivity.
Qed.

Lemma compressPromptDefault_fixed_point_witness :
  compressPromptDefault (VString (lit "Hey  example   request"))
    (Sample.store_with Sample.gpt35 VUndefined)
  = (Return (lit "Hey  example   request"), Sample.store_with Sample.gpt35 VUndefined).
Proof.
  apply (compressPromptDefault_fixed_point (Sample.store_with Sample.gpt35 VUndefined)
           (lit "Hey  example   request")).
  - reflexivity.
  - intros x Hx. apply (bool_decide_unpack _).
    revert x Hx. apply (Forall_forall (fun x => bool_decide (_ = false))).
    vm_compute. repeat constructor.
  - intros w Hw. apply (bool_decide_unpack _).
    revert w Hw. apply (Forall_forall (fun w => bool_decide (_ = false))).
    vm_compute. repeat constructor.
Defined.

(** X4.  A prompt in which the phrase occurs, or which holds a punctuation
    mark, comes back strictly shorter. *)
Theorem compressPromptDefault_strictly_shortens (st : store) (t : jsstring) :
  contains_do_not t = true \/
  (exists x, x ∈ t /\ JsString.includes PUNCTUATION [x] = true) ->
  exists out,
    compressPromptDefault (VString t) st = (Return out, st) /\ length out < length t.
Proof.
  intros H. eexists. split; [apply compressPromptDefault_string|].
  unfold compress_default.
  pose proof (remove_stopwords_length (stopwords_english st)
                (remove_punctuation (replace_do_not t))) as H3.
  pose proof (remove_punctuation_length (replace_do_not t)) as H2.
  pose proof (replace_do_not_length t) as H1.
  destruct H as [Hdn|(x & Hx & Hp)].
  - pose proof (replace_do_not_shortens _ Hdn). lia.
  - apply (replace_do_not_keeps_punctuation _ _ Hx) in Hp as Hx'.
    assert (length (remove_punctuation (replace_do_not t)) < length (replace_do_not t)).
    { rewrite remove_punctuation_filter. apply (filter_length_lt _ _ x Hx').
      cbv beta. apply negb_false_iff. exact Hp. }
    lia.
Qed.

Lemma compressPromptDefault_strictly_shortens_witness :
  exists out,
    compressPromptDefault (VString (lit "Do not go"))
      (Sample.store_with Sample.gpt35 VUndefined)
    = (Return out, Sample.store_with Sample.gpt35 VUndefined)
    /\ length out < length (lit "Do not go").
Proof.
  apply (compressPromptDefault_strictly_shortens
           (Sample.store_with Sample.gpt35 VUndefined) (lit "Do not go")).
  left. reflexivity.
Defined.

(** Compressing twice is not compressing once: taking out a full stop can
    bring the two words of the phrase together. *)
Lemma compress_default_twice_differs :
  compress_default [] (lit "do. not") = lit "do not" /\
  compress_default [] (compress_default [] (lit "do. not")) = lit "dont".
Proof. split; reflexivity. Qed.

(** X5.  On its own output the punctuation pass and the stopword pass change
    nothing; a second run of [compressPromptDefault] returns the output
    unchanged whenever the phrase does not occur in it. *)
Theorem compressPromptDefault_output_stable (st : store) (t : jsstring) :
  exists out,
    compressPromptDefault (VString t) st = (Return out, st) /\
    remove_punctuation out = out /\
    remove_stopwords (stopwords_english st) out = out /\
    (contains_do_not out = false ->
     compressPromptDefault (VString out) st = (Return out, st)).
Proof.
  eexists. split; [apply compressPromptDefault_string|].
  assert (Hp : remove_punctuation (compress_default (stopwords_english st) t)
               = compress_default (stopwords_english st) t).
  { apply remove_punctuation_fixed. intros x. apply compress_default_no_punctuation. }
  assert (Hs : remove_stopwords (stopwords_english st)
                 (compress_default (stopwords_english st) t)
               = compress_default (stopwords_english st) t)
    by apply remove_stopwords_idempotent.
  split; [exact Hp|]. split; [exact Hs|].
  intros Hdn. rewrite compressPromptDefault_string. unfold compress_default at 1.
  rewrite (replace_do_not_fixed _ Hdn), Hp, Hs. reflexivity.
Qed.

(** ** Further properties of construction *)

Section MoreConstruction.
Context {tiktoken : Tiktoken}.
Implicit Types (st : store) (r : ref) (cfg : Configuration) (m : value) (t : jsstring).

(** Every way construction can go. *)
Lemma constructor_cases st r cfg ct :
  (requests st !! r = None /\
   DietPromptCompletion.constructor cfg r ct st = (Throw TypeError, st)) \/
  (exists req, requests st !! r = Some req /\
     (prompt req = VUndefined \/ model req = VUndefined) /\
     DietPromptCompletion.constructor cfg r ct st
     = (Throw (Error "Prompt and Model are required"), st)) \/
  (exists req, requests st !! r = Some req /\
     prompt req <> VUndefined /\ model req <> VUndefined /\
     (forall t, prompt req <> VString t) /\
     DietPromptCompletion.constructor cfg r ct st
     = (Throw (Error "Prompt must be a string."), st)) \/
  (exists m t, requests st !! r = Some {| model := m; prompt := VString t |} /\
     m <> VUndefined /\ has_encoding m = false /\
     DietPromptCompletion.constructor cfg r ct st
     = (Throw (missing_encoding_error m), st)) \/
  (exists m t, requests st !! r = Some {| model := m; prompt := VString t |} /\
     m <> VUndefined /\ has_encoding m = true).
Proof.
  destruct (requests st !! r) as [[m p]|] eqn:Hreq.
  2:{ left. split; [reflexivity|].
      unfold DietPromptCompletion.constructor. cbv zeta.
      unfold bind, read_request. rewrite Hreq. reflexivity. }
  right.
  assert (Hm : m = VUndefined \/ m <> VUndefined)
    by (destruct m; [left; reflexivity | right; discriminate ..]).
  destruct Hm as [Hm|Hm].
  { left. eexists. split; [reflexivity|]. split; [right; exact Hm|].
    exact (constructor_missing _ _ _ _ _ Hreq (or_intror Hm)). }
  destruct p as [| | | |t|].
  1:{ left. eexists. split; [reflexivity|]. split; [left; reflexivity|].
      exact (constructor_missing _ _ _ _ _ Hreq (or_introl eq_refl)). }
  4:{ right. right. destruct (has_encoding m) eqn:Hsup.
      - right. exists m, t. repeat split; assumption.
      - left. exists m, t. repeat split; try assumption.
        exact (constructor_unsupported _ _ _ _ _ _ Hreq Hm Hsup). }
  all: right; left; eexists; split; [reflexivity|];
    split; [cbn; discriminate|]; split; [exact Hm|]; split; [cbn; discriminate|];
    apply (constructor_not_string _ _ _ _ _ Hreq); cbn; (discriminate || exact Hm).
Qed.

(** What a construction that returns leaves behind, for either type. *)
Lemma constructor_Return_store st r cfg ct obj st' :
  DietPromptCompletion.constructor cfg r ct st = (Return obj, st') ->
  exists m t,
    requests st !! r = Some {| model := m; prompt := VString t |} /\
    m <> VUndefined /\ has_encoding m = true /\
    DietPromptCompletion.compressionType obj = CompressionType.or_default ct /\
    DietPromptCompletion.openAICompletionRequest obj = r /\
    BasePrompt.request (DietPromptCompletion.originalPrompt obj) = r /\
    BasePrompt.tiktokenEncoding (DietPromptCompletion.originalPrompt obj)
    = fresh (dom (encodings st)) /\
    stopwords_english st' = stopwords_english st /\
    match DietPromptCompletion.compressionType obj with
    | CompressionType.none =>
        DietPromptCompletion.dietPrompt obj = None /\
        requests st' = requests st /\
        encodings st' = <[fresh (dom (encodings st)) :=
                            {| enc_model := m; enc_freed := false |}]> (encodings st)
    | CompressionType.default =>
        DietPromptCompletion.dietPrompt obj
        = Some {| BasePrompt.request := r;
                  BasePrompt.tiktokenEncoding :=
                    fresh (dom (<[fresh (dom (encodings st)) :=
                                    {| enc_model := m; enc_freed := false |}]>
                                  (encodings st)));
                  BasePrompt.openai := {| configuration := cfg |} |} /\
        requests st'
        = <[r := {| model := m;
                    prompt := VString (compress_default (stopwords_english st) t) |}]>
            (requests st) /\
        encodings st'
        = <[fresh (dom (<[fresh (dom (encodings st)) :=
                            {| enc_model := m; enc_freed := false |}]> (encodings st))) :=
              {| enc_model := m; enc_freed := false |}]>
            (<[fresh (dom (encodings st)) := {| enc_model := m; enc_freed := false |}]>
               (encodings st))
    end.
Proof.
  intros H. destruct (constructor_Return_inv _ _ _ _ _ _ H) as (m & t & Hreq & Hm & Hsup).
  exists m, t. split; [exact Hreq|]. split; [exact Hm|]. split; [exact Hsup|].
  destruct (CompressionType.or_default ct) eqn:Hct.
  - rewrite (constructor_none_ok _ _ _ _ _ _ Hreq Hm Hsup Hct) in H.
    injection H as <- <-. cbn. repeat split; reflexivity.
  - rewrite (constructor_default_ok _ _ _ _ _ _ Hreq Hm Hsup Hct) in H.
    injection H as <- <-. cbn. repeat split; reflexivity.
Qed.


(** X7.  A construction that returns creates no request object and touches
    none but the one it was given; of that one it keeps the model, and the
    stopword array is as before. *)
Theorem construction_frames_requests st r cfg ct obj st' :
  DietPromptCompletion.constructor cfg r ct st = (Return obj, st') ->
  stopwords_english st' = stopwords_english st /\
  (forall r', r' <> r -> requests st' !! r' = requests st !! r') /\
  exists req req',
    requests st !! r = Some req /\ requests st' !! r = Some req' /\
    model req' = model req.
Proof.
  intros H.
  destruct (constructor_Return_store _ _ _ _ _ _ H)
    as (m & t & Hreq & _ & _ & _ & _ & _ & _ & Hstop & Hkind).
  split; [exact Hstop|].
  destruct (DietPromptCompletion.compressionType obj).
  - destruct Hkind as (_ & -> & _). split; [reflexivity|].
    eexists _, _. split; [exact Hreq|]. split; [exact Hreq | reflexivity].
  - destruct Hkind as (_ & -> & _). split.
    + intros r' Hr'. apply lookup_insert_ne. congruence.
    + eexists _, _. split; [exact Hreq|]. split; [apply lookup_insert_eq | reflexivity].
Qed.

(** X8.  A construction that returns leaves every encoding that was in the
    store as it was, released or not.  The encodings of its own sides are
    new, usable, made for the model of the request, and the two sides do
    not share one. *)
Theorem construction_allocates_fresh_encodings st r cfg ct obj st' :
  DietPromptCompletion.constructor cfg r ct st = (Return obj, st') ->
  (forall h enc, encodings st !! h = Some enc -> encodings st' !! h = Some enc) /\
  exists m,
    let h0 := BasePrompt.tiktokenEncoding (DietPromptCompletion.originalPrompt obj) in
    (exists t, requests st !! r = Some {| model := m; prompt := VString t |}) /\
    encodings st !! h0 = None /\
    live st' h0 m /\
    forall diet, DietPromptCompletion.dietPrompt obj = Some diet ->
      encodings st !! BasePrompt.tiktokenEncoding diet = None /\
      BasePrompt.tiktokenEncoding diet <> h0 /\
      live st' (BasePrompt.tiktokenEncoding diet) m.
Proof.
  intros H.
  destruct (constructor_Return_store _ _ _ _ _ _ H)
    as (m & t & Hreq & _ & _ & _ & _ & _ & Hh0 & _ & Hkind).
  set (e := {| enc_model := m; enc_freed := false |}) in *.
  set (h0 := fresh (dom (encodings st))) in *.
  set (h1 := fresh (dom (<[h0 := e]> (encodings st)))) in *.
  assert (Hf0 : encodings st !! h0 = None) by apply not_elem_of_dom, is_fresh.
  assert (Hf1 : <[h0 := e]> (encodings st) !! h1 = None) by apply not_elem_of_dom, is_fresh.
  assert (Hne : h1 <> h0) by apply fresh_handles_differ.
  assert (Hf1' : encodings st !! h1 = None)
    by (rewrite lookup_insert_ne in Hf1 by congruence; exact Hf1).
  unfold live. cbv zeta. rewrite Hh0.
  destruct (DietPromptCompletion.compressionType obj).
  - destruct Hkind as (Hnone & _ & ->). split.
    + intros h enc Hh. rewrite lookup_insert_ne by congruence. exact Hh.
    + exists m. split; [eauto|]. split; [exact Hf0|]. split; [apply lookup_insert_eq|].
      intros diet Hd. congruence.
  - destruct Hkind as (Hdiet & _ & ->). split.
    + intros h enc Hh. rewrite !lookup_insert_ne by congruence. exact Hh.
    + exists m. split; [eauto|]. split; [exact Hf0|]. split.
      * rewrite lookup_insert_ne by congruence. apply lookup_insert_eq.
      * intros diet Hd. rewrite Hdiet in Hd. injection Hd as <-.
        cbn [BasePrompt.tiktokenEncoding].
        split; [exact Hf1'|]. split; [exact Hne | apply lookup_insert_eq].
Qed.

(** X9.  The first check of the constructor fires exactly when the prompt or
    the model is [undefined]; its two [null] operands never make it fire,
    and a prompt or model that is [null] passes it.  A [null] prompt is then
    refused by the string check. *)
Theorem missing_check_catches_only_undefined st r cfg ct req :
  requests st !! r = Some req ->
  (DietPromptCompletion.prompt_or_model_missing req = true
   <-> prompt req = VUndefined \/ model req = VUndefined) /\
  (prompt req = VNull -> model req <> VUndefined ->
   DietPromptCompletion.constructor cfg r ct st
   = (Throw (Error "Prompt must be a string."), st)).
Proof.
  intros Hreq. split.
  - rewrite prompt_or_model_missing_spec.
    destruct (prompt req), (model req); split; intros H;
      try reflexivity; try discriminate; try (left; reflexivity); try (right; reflexivity);
      destruct H; discriminate.
  - intros Hp Hm. apply (constructor_not_string _ _ _ _ _ Hreq); try exact Hm;
      rewrite Hp; discriminate.
Qed.

End MoreConstruction.

(** ** Further properties of the BasePrompt methods *)

Section MoreTokens.
Context {tiktoken : Tiktoken}.
Implicit Types (bp : BasePrompt.t) (st : store) (r : ref) (m : value).

(** Every way a call of [tokens()] can go: it returns and releases, or it
    throws and changes nothing. *)
Lemma tokens_cases bp st :
  (exists req m toks,
      requests st !! BasePrompt.request bp = Some req /\
      live st (BasePrompt.tiktokenEncoding bp) m /\
      encode m (prompt req) = Some toks /\
      BasePrompt.tokens bp st =
      (Return toks,
       set_encodings st (<[BasePrompt.tiktokenEncoding bp :=
                             {| enc_model := m; enc_freed := true |}]> (encodings st)))) \/
  (exists e, BasePrompt.tokens bp st = (Throw e, st)).
Proof.
  destruct (requests st !! BasePrompt.request bp) as [req|] eqn:Hreq.
  2:{ right. eexists. unfold BasePrompt.tokens, bind, read_request.
      rewrite Hreq. reflexivity. }
  destruct (encodings st !! BasePrompt.tiktokenEncoding bp) as [[m [|]]|] eqn:Henc.
  - right. eexists. apply (tokens_released _ _ _ Hreq). exists m. exact Henc.
  - destruct (encode m (prompt req)) as [toks|] eqn:He.
    + left. exists req, m, toks. repeat split; try assumption.
      exact (tokens_live _ _ _ _ _ Hreq Henc He).
    + right. eexists. exact (tokens_encode_fails _ _ _ _ Hreq Henc He).
  - right. eexists. unfold BasePrompt.tokens, bind, read_request, tiktoken_encode.
    rewrite Hreq, Henc. reflexivity.
Qed.

Lemma tokens_requests bp st : requests (snd (BasePrompt.tokens bp st)) = requests st.
Proof.
  destruct (tokens_cases bp st) as [(req & m & toks & _ & _ & _ & ->)|[e ->]]; reflexivity.
Qed.

(** What the methods give depends on the store only through the request
    object and the encoding that the BasePrompt holds. *)
Lemma tokens_fst_congr bp st1 st2 :
  requests st1 !! BasePrompt.request bp = requests st2 !! BasePrompt.request bp ->
  encodings st1 !! BasePrompt.tiktokenEncoding bp
  = encodings st2 !! BasePrompt.tiktokenEncoding bp ->
  fst (BasePrompt.tokens bp st1) = fst (BasePrompt.tokens bp st2).
Proof.
  intros Hr He.
  unfold BasePrompt.tokens, bind, read_request, tiktoken_encode, tiktoken_free, ret.
  rewrite Hr.
  destruct (requests st2 !! BasePrompt.request bp) as [req|]; [|reflexivity].
  cbv beta iota. rewrite He.
  destruct (encodings st2 !! BasePrompt.tiktokenEncoding bp) as [[m [|]]|] eqn:E;
    [reflexivity | | reflexivity].
  cbn [enc_freed enc_model].
  destruct (encode m (prompt req)); [|reflexivity].
  cbv beta iota. rewrite He, E. reflexivity.
Qed.

Lemma getPrompt_fst_congr bp st1 st2 :
  requests st1 !! BasePrompt.request bp = requests st2 !! BasePrompt.request bp ->
  fst (BasePrompt.getPrompt bp st1) = fst (BasePrompt.getPrompt bp st2) /\
  fst (BasePrompt.estimatedPromptCost bp st1) = fst (BasePrompt.estimatedPromptCost bp st2).
Proof.
  intros Hr. unfold BasePrompt.getPrompt, BasePrompt.estimatedPromptCost, bind, read_request.
  rewrite Hr. destruct (requests st2 !! BasePrompt.request bp) as [[m p]|];
    [|split; reflexivity].
  split; [reflexivity|]. destruct p; reflexivity.
Qed.

Lemma constructor_Throw_store st r cfg ct e st' :
  DietPromptCompletion.constructor cfg r ct st = (Throw e, st') -> st' = st.
Proof.
  intros H.
  destruct (constructor_cases st r cfg ct)
    as [[_ E]|[(req & _ & _ & E)|[(req & _ & _ & _ & _ & E)|[(m & t & _ & _ & _ & E)
       |(m & t & Hreq & Hm & Hsup)]]]];
    try (rewrite E in H; injection H as <- <-; reflexivity).
  destruct (CompressionType.or_default ct) eqn:Hct.
  - rewrite (constructor_none_ok _ _ _ _ _ _ Hreq Hm Hsup Hct) in H. discriminate.
  - rewrite (constructor_default_ok _ _ _ _ _ _ Hreq Hm Hsup Hct) in H. discriminate.
Qed.

(** X10.  A call of [tokensCount()] or [tokens()] never changes a request
    object or the stopword array, and never touches the encoding of another
    object.  A call that throws changes nothing at all, so whatever made it
    throw, it released nothing; a call that returns has released its own
    encoding. *)
Theorem token_call_frame bp st :
  let st' := snd (BasePrompt.tokensCount bp st) in
  snd (BasePrompt.tokens bp st) = st' /\
  requests st' = requests st /\
  stopwords_english st' = stopwords_english st /\
  (forall h, h <> BasePrompt.tiktokenEncoding bp ->
             encodings st' !! h = encodings st !! h) /\
  (forall e, fst (BasePrompt.tokensCount bp st) = Throw e -> st' = st) /\
  (forall n, fst (BasePrompt.tokensCount bp st) = Return n ->
             released st' (BasePrompt.tiktokenEncoding bp)).
Proof.
  cbv zeta. rewrite tokensCount_tokens. cbn [fst snd].
  destruct (tokens_cases bp st) as [(req & m & toks & _ & _ & _ & ->)|[e ->]];
    cbn [fst snd completion_map requests stopwords_english encodings set_encodings].
  - repeat split; try discriminate.
    + intros h Hh. apply lookup_insert_ne. congruence.
    + intros _ _. apply released_after_free.
  - repeat split; discriminate.
Qed.

(** X11.  [tokens()] returns exactly when the request object is there, the
    encoding of the BasePrompt has not been released, and [encode] returns
    for the prompt; it then returns what [encode] gave and leaves that
    encoding released. *)
Theorem tokens_returns_iff bp st toks st' :
  BasePrompt.tokens bp st = (Return toks, st') <->
  exists req m,
    requests st !! BasePrompt.request bp = Some req /\
    live st (BasePrompt.tiktokenEncoding bp) m /\
    encode m (prompt req) = Some toks /\
    st' = set_encodings st (<[BasePrompt.tiktokenEncoding bp :=
                                {| enc_model := m; enc_freed := true |}]> (encodings st)).
Proof.
  split.
  - intros H.
    destruct (tokens_cases bp st) as [(req & m & toks0 & Hreq & Hlive & He & E)|[e E]];
      rewrite E in H; [|discriminate].
    injection H as <- <-. exists req, m. repeat split; assumption.
  - intros (req & m & Hreq & Hlive & He & ->). exact (tokens_live _ _ _ _ _ Hreq Hlive He).
Qed.

(** X15.  [getPrompt()] and [estimatedPromptCost()] only read: they leave
    the store as it is, and they give the same before and after a
    [tokensCount()] or [tokens()] call on any object, their own included,
    whether or not the encoding has been released. *)
Theorem reads_survive_token_calls bp bp' st :
  snd (BasePrompt.getPrompt bp st) = st /\
  snd (BasePrompt.estimatedPromptCost bp st) = st /\
  fst (BasePrompt.getPrompt bp (snd (BasePrompt.tokensCount bp' st)))
  = fst (BasePrompt.getPrompt bp st) /\
  fst (BasePrompt.estimatedPromptCost bp (snd (BasePrompt.tokensCount bp' st)))
  = fst (BasePrompt.estimatedPromptCost bp st) /\
  fst (BasePrompt.getPrompt bp (snd (BasePrompt.tokens bp' st)))
  = fst (BasePrompt.getPrompt bp st) /\
  fst (BasePrompt.estimatedPromptCost bp (snd (BasePrompt.tokens bp' st)))
  = fst (BasePrompt.estimatedPromptCost bp st).
Proof.
  assert (Hro : snd (BasePrompt.getPrompt bp st) = st /\
                snd (BasePrompt.estimatedPromptCost bp st) = st).
  { unfold BasePrompt.getPrompt, BasePrompt.estimatedPromptCost, bind, read_request.
    destruct (requests st !! BasePrompt.request bp) as [[m p]|]; [|split; reflexivity].
    split; [reflexivity|]. destruct p; reflexivity. }
  destruct Hro as [Hg Hc]. split; [exact Hg|]. split; [exact Hc|].
  rewrite tokensCount_tokens. cbn [snd].
  pose proof (getPrompt_fst_congr bp (snd (BasePrompt.tokens bp' st)) st) as [H1 H2];
    [rewrite tokens_requests; reflexivity|].
  repeat split; assumption.
Qed.

End MoreTokens.

(** ** Further properties of the accounting object *)

Section MoreAccounting.
Context {tiktoken : Tiktoken}.
Implicit Types (bp : BasePrompt.t) (st : store) (r : ref) (cfg : Configuration).

(** X12.  After a construction that returns, [estimatedPromptCost()] of the
    original side is a number between 0 and the length of the prompt that
    was passed in; under none it is that length, and a compressed side, when
    there is one, has the same cost as the original side. *)
Theorem estimated_cost_bounded_by_supplied_prompt st r cfg ct obj st' :
  DietPromptCompletion.constructor cfg r ct st = (Return obj, st') ->
  exists m t n,
    requests st !! r = Some {| model := m; prompt := VString t |} /\
    BasePrompt.estimatedPromptCost (DietPromptCompletion.originalPrompt obj) st'
    = (Return (VNumber n), st') /\
    (0 <= n <= Z.of_nat (length t))%Z /\
    (DietPromptCompletion.compressionType obj = CompressionType.none ->
     n = Z.of_nat (length t)) /\
    (forall diet, DietPromptCompletion.dietPrompt obj = Some diet ->
       BasePrompt.estimatedPromptCost diet st' = (Return (VNumber n), st')).
Proof.
  intros H.
  destruct (constructor_Return_store _ _ _ _ _ _ H)
    as (m & t & Hreq & _ & _ & _ & _ & Horig & _ & _ & Hkind).
  assert (Hcost : forall bp p, BasePrompt.request bp = r ->
            requests st' !! r = Some {| model := m; prompt := VString p |} ->
            BasePrompt.estimatedPromptCost bp st'
            = (Return (VNumber (Z.of_nat (length p))), st')).
  { intros bp p <- Hr. unfold BasePrompt.estimatedPromptCost.
    rewrite (bind_Return _ _ _ _ _ (read_request_Some _ _ _ Hr)). reflexivity. }
  destruct (DietPromptCompletion.compressionType obj).
  - destruct Hkind as (Hnone & Hreqs & _).
    exists m, t, (Z.of_nat (length t)). split; [exact Hreq|].
    split; [apply Hcost; [exact Horig | rewrite Hreqs; exact Hreq]|].
    split; [lia|]. split; [reflexivity|]. intros diet Hd. congruence.
  - destruct Hkind as (Hdiet & Hreqs & _).
    assert (Hr : requests st' !! r
                 = Some {| model := m;
                           prompt := VString (compress_default (stopwords_english st) t) |})
      by (rewrite Hreqs; apply lookup_insert_eq).
    exists m, t, (Z.of_nat (length (compress_default (stopwords_english st) t))).
    split; [exact Hreq|]. split; [exact (Hcost _ _ Horig Hr)|].
    pose proof (compress_default_length (stopwords_english st) t).
    split; [lia|]. split; [discriminate|].
    intros diet Hd. rewrite Hdiet in Hd. injection Hd as <-.
    apply Hcost; [reflexivity | exact Hr].
Qed.

(** X13.  [originalRequest()] hands out the very request object that was
    passed to the constructor and changes nothing.  After a construction
    under default that object carries the compressed prompt, not the
    original one; under none it is as it was passed in.  Its model is kept
    in both cases. *)
Theorem originalRequest_after_construction st r cfg ct obj st' :
  DietPromptCompletion.constructor cfg r ct st = (Return obj, st') ->
  DietPromptCompletion.originalRequest obj st' = (Return r, st') /\
  exists m t,
    requests st !! r = Some {| model := m; prompt := VString t |} /\
    read_request r st'
    = (Return {| model := m;
                 prompt := VString
                   match DietPromptCompletion.compressionType obj with
                   | CompressionType.none => t
                   | CompressionType.default =>
                       compress_default (stopwords_english st) t
                   end |}, st').
Proof.
  intros H.
  destruct (constructor_Return_store _ _ _ _ _ _ H)
    as (m & t & Hreq & _ & _ & _ & Hr & _ & _ & _ & Hkind).
  split; [unfold DietPromptCompletion.originalRequest, ret; rewrite Hr; reflexivity|].
  exists m, t. split; [exact Hreq|]. apply read_request_Some.
  destruct (DietPromptCompletion.compressionType obj).
  - destruct Hkind as (_ & -> & _). exact Hreq.
  - destruct Hkind as (_ & -> & _). apply lookup_insert_eq.
Qed.

(** X14.  Constructing on one request object disturbs no BasePrompt that
    holds another request object and an encoding already in the store: all
    four of its methods give after the construction, whether that returned
    or threw, what they would have given before. *)
Theorem construction_does_not_disturb_other_objects st r cfg ct bp :
  BasePrompt.request bp <> r ->
  is_Some (encodings st !! BasePrompt.tiktokenEncoding bp) ->
  let st' := snd (DietPromptCompletion.constructor cfg r ct st) in
  fst (BasePrompt.tokens bp st') = fst (BasePrompt.tokens bp st) /\
  fst (BasePrompt.tokensCount bp st') = fst (BasePrompt.tokensCount bp st) /\
  fst (BasePrompt.getPrompt bp st') = fst (BasePrompt.getPrompt bp st) /\
  fst (BasePrompt.estimatedPromptCost bp st') = fst (BasePrompt.estimatedPromptCost bp st).
Proof.
  intros Hne [enc Henc]. cbv zeta.
  destruct (DietPromptCompletion.constructor cfg r ct st) as [[obj|e] st'] eqn:H; cbn [snd].
  2:{ rewrite (constructor_Throw_store _ _ _ _ _ _ H). repeat split; reflexivity. }
  assert (Hreqs : requests st' !! BasePrompt.request bp
                  = requests st !! BasePrompt.request bp).
  { destruct (constructor_Return_store _ _ _ _ _ _ H)
      as (m & t & _ & _ & _ & _ & _ & _ & _ & _ & Hkind).
    destruct (DietPromptCompletion.compressionType obj).
    - destruct Hkind as (_ & -> & _). reflexivity.
    - destruct Hkind as (_ & -> & _). apply lookup_insert_ne. congruence. }
  assert (Hencs : encodings st' !! BasePrompt.tiktokenEncoding bp
                  = encodings st !! BasePrompt.tiktokenEncoding bp).
  { destruct (constructor_Return_store _ _ _ _ _ _ H)
      as (m & t & _ & _ & _ & _ & _ & _ & _ & _ & Hkind).
    set (e0 := {| enc_model := m; enc_freed := false |}) in *.
    set (h0 := fresh (dom (encodings st))) in *.
    set (h1 := fresh (dom (<[h0 := e0]> (encodings st)))) in *.
    assert (Hf0 : encodings st !! h0 = None) by apply not_elem_of_dom, is_fresh.
    assert (Hf1 : <[h0 := e0]> (encodings st) !! h1 = None)
      by apply not_elem_of_dom, is_fresh.
    assert (Hne1 : h1 <> h0) by apply fresh_handles_differ.
    rewrite lookup_insert_ne in Hf1 by congruence.
    destruct (DietPromptCompletion.compressionType obj).
    - destruct Hkind as (_ & _ & ->). apply lookup_insert_ne. congruence.
    - destruct Hkind as (_ & _ & ->). rewrite !lookup_insert_ne by congruence. reflexivity. }
  rewrite !tokensCount_tokens. cbn [fst].
  rewrite (tokens_fst_congr bp st' st Hreqs Hencs).
  destruct (getPrompt_fst_congr bp st' st Hreqs) as [-> ->].
  repeat split; reflexivity.
Qed.

End MoreAccounting.

(** ** The further theorems at work on the sample store *)


Lemma construction_frames_requests_witness :
  requests (snd (@DietPromptCompletion.constructor Sample.tiktoken Sample.config 0 None
                   (Sample.store_two (VString Sample.example_prompt)))) !! 1
  = requests (Sample.store_two (VString Sample.example_prompt)) !! 1.
Proof.
  edestruct (@construction_frames_requests Sample.tiktoken
               (Sample.store_two (VString Sample.example_prompt)) 0 Sample.config None)
    as (_ & Hframe & _); [reflexivity|].
  exact (Hframe 1 ltac:(discriminate)).
Defined.

Lemma construction_allocates_fresh_encodings_witness :
  encodings (snd (@DietPromptCompletion.constructor Sample.tiktoken Sample.config 0 None
                    (Sample.store_two (VString Sample.example_prompt)))) !! 0
  = Some {| enc_model := Sample.gpt35; enc_freed := false |}.
Proof.
  edestruct (@construction_allocates_fresh_encodings Sample.tiktoken
               (Sample.store_two (VString Sample.example_prompt)) 0 Sample.config None)
    as (Hkept & _); [reflexivity|].
  exact (Hkept 0 _ eq_refl).
Defined.

Lemma missing_check_catches_only_undefined_witness :
  @DietPromptCompletion.constructor Sample.tiktoken Sample.config 0 None
    (Sample.store_with Sample.gpt35 VNull)
  = (Throw (Error "Prompt must be a string."), Sample.store_with Sample.gpt35 VNull).
Proof.
  apply (@missing_check_catches_only_undefined Sample.tiktoken
           (Sample.store_with Sample.gpt35 VNull) 0 Sample.config None
           {| model := Sample.gpt35; prompt := VNull |});
    [reflexivity | reflexivity | discriminate].
Defined.

Lemma estimated_cost_bounded_by_supplied_prompt_witness :
  exists n,
    @BasePrompt.estimatedPromptCost
      (DietPromptCompletion.originalPrompt (Sample.accounting CompressionType.default))
      (snd (@DietPromptCompletion.constructor Sample.tiktoken Sample.config 0 None
              (Sample.store_with Sample.gpt35 (VString Sample.example_prompt))))
    = (Return (VNumber n),
       snd (@DietPromptCompletion.constructor Sample.tiktoken Sample.config 0 None
              (Sample.store_with Sample.gpt35 (VString Sample.example_prompt)))) /\
    (0 <= n <= 55)%Z.
Proof.
  edestruct (@estimated_cost_bounded_by_supplied_prompt Sample.tiktoken
               (Sample.store_with Sample.gpt35 (VString Sample.example_prompt))
               0 Sample.config None (Sample.accounting CompressionType.default))
    as (m & t & n & Hreq & Hcost & Hn & _); [reflexivity|].
  exists n. split; [exact Hcost|].
  assert (Ht : t = Sample.example_prompt).
  { apply (inj Some) in Hreq. injection Hreq as _ <-. reflexivity. }
  rewrite Ht in Hn. exact Hn.
Defined.

Lemma originalRequest_after_construction_witness :
  DietPromptCompletion.originalRequest (Sample.accounting CompressionType.default)
    (snd (@DietPromptCompletion.constructor Sample.tiktoken Sample.config 0 None
            (Sample.store_with Sample.gpt35 (VString Sample.example_prompt))))
  = (Return 0,
     snd (@DietPromptCompletion.constructor Sample.tiktoken Sample.config 0 None
            (Sample.store_with Sample.gpt35 (VString Sample.example_prompt)))).
Proof.
  eapply (@originalRequest_after_construction Sample.tiktoken
            (Sample.store_with Sample.gpt35 (VString Sample.example_prompt))
            0 Sample.config None (Sample.accounting CompressionType.default)).
  reflexivity.
Defined.

Lemma construction_does_not_disturb_other_objects_witness :
  fst (@BasePrompt.tokensCount Sample.tiktoken Sample.other
         (snd (@DietPromptCompletion.constructor Sample.tiktoken Sample.config 0 None
                 (Sample.store_two (VString Sample.example_prompt)))))
  = fst (@BasePrompt.tokensCount Sample.tiktoken Sample.other
           (Sample.store_two (VString Sample.example_prompt))).
Proof.
  apply (@construction_does_not_disturb_other_objects Sample.tiktoken
           (Sample.store_two (VString Sample.example_prompt)) 0 Sample.config None
           Sample.other); [discriminate | eexists; reflexivity].
Defined.
